(** * usbtree: USB topology reconstruction

    A shallow embedding of the detector code of usbtree
    (internal/models/device.go and the darwin and linux detectors of
    internal/usb) together with the properties its specification states
    about it.

    Conventions of the embedding.
    - Go [int], [uint16] and [uint8] values are [Z]; conversions that wrap
      are written out with [mod].
    - Go strings are byte strings: [string] with one [ascii] per byte.
    - A [*models.USBDevice] is an index ([ptr]) into a heap of records, so
      that [AddChild] mutates the shared record as it does in Go.
    - A Go map is a [gmap]; the keys built by [fmt.Sprintf] with the format
      "%d-%d" from bus and address are kept as the pair [(bus, address)] and
      the keys "bus-%d" as the bus number (the formatted strings determine
      them, see [devKey_inj] and [busKey_inj]).
    - The iteration order of [range] over a map is unspecified in Go: every
      such loop takes its order from a [RangeOrder], an arbitrary
      permutation of the entries. *)

From Stdlib Require Import ZArith String Ascii List Lia Bool.
From stdpp Require Import gmap strings list pretty.

Local Open Scope Z_scope.

(** ** The parts of the Go standard library the detectors call *)

Module GoLib.

(** [strings.HasPrefix]. *)
Fixpoint HasPrefix (s prefix : string) {struct prefix} : bool :=
  match prefix with
  | EmptyString => true
  | String c prefix' =>
      match s with
      | EmptyString => false
      | String d s' => Ascii.eqb c d && HasPrefix s' prefix'
      end
  end.

(** [strings.TrimPrefix]: the prefix is removed once when it is there. *)
Definition TrimPrefix (s prefix : string) : string :=
  if HasPrefix s prefix
  then String.substring (String.length prefix)
         (String.length s - String.length prefix) s
  else s.

(** [strings.Contains]. *)
Fixpoint Contains (s substr : string) : bool :=
  HasPrefix s substr ||
  match s with
  | EmptyString => false
  | String _ s' => Contains s' substr
  end.

Definition byte_of (c : ascii) : Z := Z.of_N (N_of_ascii c).

(** [strconv]'s [lower]: [c | ('x' - 'X')]. *)
Definition lower (c : Z) : Z := Z.lor c 32.

Inductive NumError := ErrSyntax | ErrRange.

(** The digit value [strconv.ParseUint] gives a byte, before the test
    against the base. *)
Definition digit_of (c : Z) : option Z :=
  if (48 <=? c) && (c <=? 57) then Some (c - 48)
  else if (97 <=? lower c) && (lower c <=? 122) then Some (lower c - 97 + 10)
  else None.

(** The loop of [strconv.ParseUint] over the bytes of the string, with the
    accumulator [n] a [uint64]. *)
Fixpoint ParseUint_loop (base maxVal cutoff : Z) (s : string) (n : Z)
  : Z * option NumError :=
  match s with
  | EmptyString => (n, None)
  | String c s' =>
      match digit_of (byte_of c) with
      | None => (0, Some ErrSyntax)
      | Some d =>
          if d >=? base then (0, Some ErrSyntax)
          else if n >=? cutoff then (maxVal, Some ErrRange)
          else
            let n' := (n * base) mod 2 ^ 64 in
            let n1 := (n' + d) mod 2 ^ 64 in
            if (n1 <? n') || (n1 >? maxVal) then (maxVal, Some ErrRange)
            else ParseUint_loop base maxVal cutoff s' n1
      end
  end.

(** [strconv.ParseUint(s, base, bitSize)] for an explicit base in 2..36 and
    a bit size in 1..64 (the detectors call it with 16 and 16), where
    neither a base prefix nor an underscore is accepted. *)
Definition ParseUint (s : string) (base bitSize : Z) : Z * option NumError :=
  if String.eqb s "" then (0, Some ErrSyntax)
  else ParseUint_loop base (2 ^ bitSize - 1) ((2 ^ 64 - 1) / base + 1) s 0.


(** [strings.ToLower] on ASCII text: the letters [A]..[Z] are mapped to
    [a]..[z]. Bytes from 128 up are left as they are (Go also maps the
    upper-case letters of other alphabets; the device descriptions handled
    here are ASCII). *)
Definition lower_byte (c : ascii) : ascii :=
  let b := byte_of c in
  if (65 <=? b) && (b <=? 90) then ascii_of_N (Z.to_N (b + 32)) else c.

Fixpoint ToLower (s : string) : string :=
  match s with
  | EmptyString => EmptyString
  | String c s' => String (lower_byte c) (ToLower s')
  end.

(** The [asciiSpace] table of package [strings]: tab, newline, vertical
    tab, form feed, carriage return and space. *)
Definition asciiSpace (c : ascii) : bool :=
  let b := byte_of c in
  ((9 <=? b) && (b <=? 13)) || (b =? 32).

Fixpoint TrimLeftSpace (s : string) : string :=
  match s with
  | EmptyString => EmptyString
  | String c s' => if asciiSpace c then TrimLeftSpace s' else s
  end.

Fixpoint TrimRightSpace (s : string) : string :=
  match s with
  | EmptyString => EmptyString
  | String c s' =>
      let r := TrimRightSpace s' in
      if asciiSpace c && String.eqb r "" then EmptyString else String c r
  end.

(** [strings.TrimSpace] on ASCII text (the white space of other scripts,
    which Go also trims, is encoded in bytes from 128 up and kept here). *)
Definition TrimSpace (s : string) : string := TrimRightSpace (TrimLeftSpace s).

Definition newline : ascii := ascii_of_N 10.
Definition space : ascii := ascii_of_N 32.

(** [strings.Split] at the separator "\n". *)
Fixpoint SplitLines (s : string) : list string :=
  match s with
  | EmptyString => [EmptyString]
  | String c s' =>
      if Ascii.eqb c newline then EmptyString :: SplitLines s'
      else
        match SplitLines s' with
        | x :: xs => String c x :: xs
        | [] => [String c EmptyString]
        end
  end.

(** [strings.SplitN] with separator " " and count 2: cut at the first
    space, if there is one. *)
Fixpoint cutSpace (s : string) : option (string * string) :=
  match s with
  | EmptyString => None
  | String c s' =>
      if Ascii.eqb c space then Some (EmptyString, s')
      else
        match cutSpace s' with
        | Some (a, b) => Some (String c a, b)
        | None => None
        end
  end.

Definition SplitN2 (s : string) : list string :=
  match cutSpace s with
  | Some (a, b) => [a; b]
  | None => [s]
  end.

(** The value of a run of decimal digits. *)
Definition is_digit (c : ascii) : bool :=
  let b := byte_of c in (48 <=? b) && (b <=? 57).

Fixpoint dec_value_from (acc : Z) (s : string) : Z :=
  match s with
  | EmptyString => acc
  | String c s' => dec_value_from (10 * acc + (byte_of c - 48)) s'
  end.

(** [n, _ := strconv.Atoi(s)] for a non-empty run of decimal digits (what
    the patterns "\d{3}" and "\d+" capture): the value, or the largest
    [int] when the value does not fit, the range error being dropped. *)
Definition Atoi (s : string) : Z :=
  let v := dec_value_from 0 s in
  if v <=? 2 ^ 63 - 1 then v else 2 ^ 63 - 1.

(** [fmt.Sprintf] with the verb "%d". *)
Definition fmt_d (n : Z) : string := pretty n.

(** [fmt.Sprintf] with the verb "%x" for an unsigned [n]: lower-case hexadecimal
    digits, most significant first. *)
Definition hex_char (d : Z) : ascii :=
  ascii_of_N (Z.to_N (if d <? 10 then 48 + d else 87 + d)).

Fixpoint hex_digits_rev (fuel : nat) (n : Z) : list ascii :=
  match fuel with
  | O => []
  | S fuel' =>
      if n <? 16 then [hex_char n]
      else hex_char (n mod 16) :: hex_digits_rev fuel' (n / 16)
  end.

Definition fmt_x (n : Z) : string :=
  string_of_list_ascii (rev (hex_digits_rev (S (Z.to_nat (Z.log2 n))) n)).

(** The flag and width of "%02x": padded with zeros on the left to two
    characters. *)
Fixpoint zeros (k : nat) : string :=
  match k with
  | O => EmptyString
  | S k' => String (ascii_of_N 48) (zeros k')
  end.

Definition fmt_02x (n : Z) : string :=
  let s := fmt_x n in
  String.append (zeros (2 - String.length s)) s.

(** The order in which a [range] loop visits the entries of a map: Go
    leaves it unspecified, so it is some permutation of the entries. *)
Record RangeOrder := {
  shuffle : forall A : Type, list A -> list A;
  shuffle_perm : forall (A : Type) (l : list A), shuffle A l ≡ₚ l
}.

Definition range {K : Type} `{Countable K} {V : Type} (ro : RangeOrder)
    (m : gmap K V) : list (K * V) :=
  shuffle ro (K * V) (map_to_list m).

(** The flag and width of "%04x". *)
Definition fmt_04x (n : Z) : string :=
  let s := fmt_x n in
  String.append (zeros (4 - String.length s)) s.

(** [strings.Join]. *)
Fixpoint Join (elems : list string) (sep : string) : string :=
  match elems with
  | [] => EmptyString
  | [x] => x
  | x :: rest => String.append x (String.append sep (Join rest sep))
  end.

End GoLib.

(** ** internal/models/device.go *)

Module Models.

Abbreviation ptr := nat (only parsing).

Record USBDevice := mkUSBDevice {
  VendorID : Z;
  ProductID : Z;
  VendorName : string;
  ProductName : string;
  Bus : Z;
  Port : Z;
  Address : Z;
  Serial : string;
  Speed : string;
  Class : string;
  SubClass : string;
  Protocol : string;
  MaxPower : string;
  Children : list ptr
}.

(** A record as a Go composite literal leaves it: every field at its zero
    value. *)
Definition zeroDevice : USBDevice :=
  mkUSBDevice 0 0 "" "" 0 0 0 "" "" "" "" "" "" [].

Definition set_VendorName (v : string) (d : USBDevice) : USBDevice :=
  mkUSBDevice (VendorID d) (ProductID d) v (ProductName d) (Bus d) (Port d)
    (Address d) (Serial d) (Speed d) (Class d) (SubClass d) (Protocol d)
    (MaxPower d) (Children d).
Definition set_Port (v : Z) (d : USBDevice) : USBDevice :=
  mkUSBDevice (VendorID d) (ProductID d) (VendorName d) (ProductName d)
    (Bus d) v (Address d) (Serial d) (Speed d) (Class d) (SubClass d)
    (Protocol d) (MaxPower d) (Children d).
Definition set_Serial (v : string) (d : USBDevice) : USBDevice :=
  mkUSBDevice (VendorID d) (ProductID d) (VendorName d) (ProductName d)
    (Bus d) (Port d) (Address d) v (Speed d) (Class d) (SubClass d)
    (Protocol d) (MaxPower d) (Children d).
Definition set_Speed (v : string) (d : USBDevice) : USBDevice :=
  mkUSBDevice (VendorID d) (ProductID d) (VendorName d) (ProductName d)
    (Bus d) (Port d) (Address d) (Serial d) v (Class d) (SubClass d)
    (Protocol d) (MaxPower d) (Children d).
Definition set_Class (v : string) (d : USBDevice) : USBDevice :=
  mkUSBDevice (VendorID d) (ProductID d) (VendorName d) (ProductName d)
    (Bus d) (Port d) (Address d) (Serial d) (Speed d) v (SubClass d)
    (Protocol d) (MaxPower d) (Children d).
Definition set_SubClass (v : string) (d : USBDevice) : USBDevice :=
  mkUSBDevice (VendorID d) (ProductID d) (VendorName d) (ProductName d)
    (Bus d) (Port d) (Address d) (Serial d) (Speed d) (Class d) v
    (Protocol d) (MaxPower d) (Children d).
Definition set_Protocol (v : string) (d : USBDevice) : USBDevice :=
  mkUSBDevice (VendorID d) (ProductID d) (VendorName d) (ProductName d)
    (Bus d) (Port d) (Address d) (Serial d) (Speed d) (Class d) (SubClass d)
    v (MaxPower d) (Children d).
Definition set_MaxPower (v : string) (d : USBDevice) : USBDevice :=
  mkUSBDevice (VendorID d) (ProductID d) (VendorName d) (ProductName d)
    (Bus d) (Port d) (Address d) (Serial d) (Speed d) (Class d) (SubClass d)
    (Protocol d) v (Children d).
Definition set_Children (v : list ptr) (d : USBDevice) : USBDevice :=
  mkUSBDevice (VendorID d) (ProductID d) (VendorName d) (ProductName d)
    (Bus d) (Port d) (Address d) (Serial d) (Speed d) (Class d) (SubClass d)
    (Protocol d) (MaxPower d) v.

(** The heap of device records; a [*USBDevice] is an index into it. Every
    pointer the detectors hold was returned by [new], so the out-of-range
    case of a read or an update (left as a no-op here) does not arise. *)
Abbreviation heap := (list USBDevice) (only parsing).

Definition new (d : USBDevice) (h : heap) : ptr * heap :=
  (length h, h ++ [d]).

Definition update (f : USBDevice -> USBDevice) (p : ptr) (h : heap) : heap :=
  alter f p h.

(** [func (d *USBDevice) AddChild(child *USBDevice)]:
    [d.Children = append(d.Children, child)]. *)
Definition AddChild (d child : ptr) (h : heap) : heap :=
  update (fun r => set_Children (Children r ++ [child]) r) d h.

(** [func (d *USBDevice) HasChildren() bool]. *)
Definition HasChildren (d : USBDevice) : bool :=
  (0 <? length (Children d))%nat.

(** [func (d *USBDevice) GetDisplayName() string]. *)
Definition GetDisplayName (d : USBDevice) : string :=
  if negb (String.eqb (ProductName d) "") then ProductName d
  else if negb (String.eqb (VendorName d) "") then VendorName d
  else "Unknown Device".

(** [func (d *USBDevice) GetIDString() string], with the format
    "%04x:%04x". *)
Definition GetIDString (d : USBDevice) : string :=
  String.append (GoLib.fmt_04x (VendorID d))
    (String.append ":" (GoLib.fmt_04x (ProductID d))).

End Models.

(** ** The darwin detector (system_profiler backend) *)

Module Darwin.
Import GoLib Models.

Record spUSBController := mkController {
  cName : string;
  cHostController : string;
  cVendorID : string;
  cProductID : string;
  cManufacturer : string;
  cSerialNum : string;
  cSpeed : string;
  cCurrentAvailable : string;
  cCurrentRequired : string
}.

(** [parseHexID]. *)
Definition parseHexID (hexStr : string) : Z :=
  if String.eqb hexStr "" then 0
  else
    let hexStr := TrimPrefix hexStr "0x" in
    match ParseUint hexStr 16 16 with
    | (_, Some _) => 0
    | (val, None) => val mod 2 ^ 16
    end.

(** [convertSystemProfilerSpeed]. *)
Definition convertSystemProfilerSpeed (speed : string) : string :=
  if Contains speed "low_speed" then "Low (1.5 Mbps)"
  else if Contains speed "full_speed" then "Full (12 Mbps)"
  else if Contains speed "high_speed" then "High (480 Mbps)"
  else if Contains speed "super_speed_5gbps" then "Super (5 Gbps)"
  else if Contains speed "super_speed_10gbps" then "Super+ (10 Gbps)"
  else if Contains speed "super_speed" then "Super (5 Gbps)"
  else if negb (String.eqb speed "") then speed
  else "Unknown".

(** [createRootHubFromController]; the record it returns is fresh. *)
Definition createRootHubFromController (controller : spUSBController)
    (busNumber : Z) : USBDevice :=
  let vendorID := parseHexID (cVendorID controller) in
  let productID := parseHexID (cProductID controller) in
  let isUSB3 := Contains (cName controller) "31"
                || Contains (cHostController controller) "XHCI" in
  let vendorID := if vendorID =? 0 then 0x05ac else vendorID in
  let productID :=
    if productID =? 0 then (if isUSB3 then 0x0003 else 0x0002)
    else productID in
  let hubName :=
    if negb (String.eqb (cHostController controller) "")
    then (if isUSB3 then "USB 3.1 Root Hub" else "USB 2.0 Root Hub")%string
    else cName controller in
  let rootHub :=
    {| VendorID := vendorID;
       ProductID := productID;
       VendorName := cManufacturer controller;
       ProductName := hubName;
       Bus := busNumber;
       Port := 0;
       Address := 1;
       Serial := "";
       Speed := convertSystemProfilerSpeed (cSpeed controller);
       Class := "Hub";
       SubClass := "00";
       Protocol := "00";
       MaxPower := "";
       Children := [] |} in
  let rootHub :=
    if String.eqb (VendorName rootHub) "" then set_VendorName "Apple Inc." rootHub
    else rootHub in
  let rootHub :=
    if String.eqb (Speed rootHub) "Unknown" || String.eqb (Speed rootHub) ""
    then set_Speed (if isUSB3 then "Super (5 Gbps)" else "High (480 Mbps)")%string
           rootHub
    else rootHub in
  let rootHub :=
    if negb (String.eqb (cCurrentAvailable controller) "")
    then set_MaxPower (cCurrentAvailable controller) rootHub
    else rootHub in
  rootHub.

(** What the text of an ID denotes, read independently of the parser:
    the string is well formed when it is a non-empty run of hexadecimal
    digits whose value fits 16 bits. *)
Definition is_hex_digit (c : ascii) : bool :=
  let b := byte_of c in
  ((48 <=? b) && (b <=? 57)) || ((97 <=? b) && (b <=? 102))
  || ((65 <=? b) && (b <=? 70)).

Definition hex_digit_value (c : ascii) : Z :=
  let b := byte_of c in
  if b <=? 57 then b - 48 else if b <=? 70 then b - 55 else b - 87.

Fixpoint all_hex (s : string) : bool :=
  match s with
  | EmptyString => true
  | String c s' => is_hex_digit c && all_hex s'
  end.

Fixpoint hex_value_from (acc : Z) (s : string) : Z :=
  match s with
  | EmptyString => acc
  | String c s' => hex_value_from (16 * acc + hex_digit_value c) s'
  end.

Definition hex_value (s : string) : Z := hex_value_from 0 s.

Definition well_formed_id (s : string) : bool :=
  negb (String.eqb s "") && all_hex s && (hex_value s <? 2 ^ 16).

End Darwin.

(** ** The linux detector *)

Module Linux.
Import GoLib Models.

(** The outcome of a call that returns [(value, error)]; an error is kept
    as its message. *)
Inductive result (A : Type) :=
  | Ok (a : A)
  | Err (msg : string).
Arguments Ok {A} a.
Arguments Err {A} msg.

(** *** Matching the three regular expressions

    Each pattern is a fixed sequence of literals and character classes, so
    an attempt at one position is deterministic; [regexp] reports the
    leftmost position at which an attempt succeeds. The lines the patterns
    are applied to come from splitting the output at newlines and hold
    no newline, so [.] matches every byte of them. *)

(** A literal at the start of [s]; the rest of [s]. *)
Fixpoint lit (pat s : string) {struct pat} : option string :=
  match pat with
  | EmptyString => Some s
  | String c pat' =>
      match s with
      | EmptyString => None
      | String d s' => if Ascii.eqb c d then lit pat' s' else None
      end
  end.

(** Exactly [n] bytes of a class: "\d{3}", "[0-9a-f]{4}". *)
Fixpoint classN (P : ascii -> bool) (n : nat) (s : string)
  : option (string * string) :=
  match n with
  | O => Some (EmptyString, s)
  | S n' =>
      match s with
      | EmptyString => None
      | String c s' =>
          if P c then
            match classN P n' s' with
            | Some (a, r) => Some (String c a, r)
            | None => None
            end
          else None
      end
  end.

(** The longest run of a class at the start of [s], and the rest. *)
Fixpoint span (P : ascii -> bool) (s : string) : string * string :=
  match s with
  | EmptyString => (EmptyString, EmptyString)
  | String c s' =>
      if P c then let '(a, r) := span P s' in (String c a, r)
      else (EmptyString, s)
  end.

(** The run "\d+" followed by something that is not a digit: the run is taken
    whole, an attempt with fewer digits cannot succeed. *)
Definition plus (P : ascii -> bool) (s : string) : option (string * string) :=
  match span P s with
  | (EmptyString, _) => None
  | (a, r) => Some (a, r)
  end.

Definition is_lower_hex (c : ascii) : bool :=
  let b := byte_of c in
  ((48 <=? b) && (b <=? 57)) || ((97 <=? b) && (b <=? 102)).

(** The class "\s" of [regexp]: tab, newline, form feed, carriage return
    and space. *)
Definition re_space (c : ascii) : bool :=
  let b := byte_of c in
  (b =? 9) || (b =? 10) || (b =? 12) || (b =? 13) || (b =? 32).

(** The leftmost position at which [here] succeeds. *)
Fixpoint leftmost {A : Type} (here : string -> option A) (s : string)
  : option A :=
  match here s with
  | Some m => Some m
  | None =>
      match s with
      | EmptyString => None
      | String _ s' => leftmost here s'
      end
  end.

(** The pattern of a device line, "Bus (\d{3}) Device (\d{3}): ID " followed
    by "([0-9a-f]{4}):([0-9a-f]{4})", white space "\s*" and a last group
    that takes the rest of the line, at the start of [s]: the whole match
    and the five groups. *)
Definition lsusbRe_here (s : string) : option (list string) :=
  r ← lit "Bus " s;
  '(m1, r) ← classN is_digit 3 r;
  r ← lit " Device " r;
  '(m2, r) ← classN is_digit 3 r;
  r ← lit ": ID " r;
  '(m3, r) ← classN is_lower_hex 4 r;
  r ← lit ":" r;
  '(m4, r) ← classN is_lower_hex 4 r;
  Some [s; m1; m2; m3; m4; snd (span re_space r)].

(** [re.FindStringSubmatch(line)]; [nil] when the line does not match. *)
Definition lsusbRe (line : string) : list string :=
  default [] (leftmost lsusbRe_here line).

(** The tail ".*?(\d+M)?$" on the rest of a line: the lazy [.*?] stops at the first
    position from which the line ends in digits and [M], which the group
    captures; with no such position it runs to the end and the group is
    empty. *)
Definition is_speed_token (s : string) : bool :=
  let '(d, r) := span is_digit s in
  negb (String.eqb d "") && String.eqb r "M".

Fixpoint lazySpeed (s : string) : string :=
  if is_speed_token s then s
  else
    match s with
    | EmptyString => EmptyString
    | String _ s' => lazySpeed s'
    end.

(** The pattern "Bus (\d+)\.Port (\d+): Dev (\d+).*?(\d+M)?$". *)
Definition busRe_here (s : string) : option (list string) :=
  r ← lit "Bus " s;
  '(m1, r) ← plus is_digit r;
  r ← lit ".Port " r;
  '(m2, r) ← plus is_digit r;
  r ← lit ": Dev " r;
  '(m3, r) ← plus is_digit r;
  Some [s; m1; m2; m3; lazySpeed r].

Definition busRe (line : string) : list string :=
  default [] (leftmost busRe_here line).

(** The pattern "Port (\d+): Dev (\d+).*?(\d+M)?$". *)
Definition portRe_here (s : string) : option (list string) :=
  r ← lit "Port " s;
  '(m1, r) ← plus is_digit r;
  r ← lit ": Dev " r;
  '(m2, r) ← plus is_digit r;
  Some [s; m1; m2; lazySpeed r].

Definition portRe (line : string) : list string :=
  default [] (leftmost portRe_here line).

(** [matches[i]]. *)
Definition group (matches : list string) (i : nat) : string :=
  nth i matches EmptyString.

(** *** parseLsusbOutput *)

(** The split of the description into vendor and product name. *)
Definition splitDescription (description : string) : string * string :=
  if negb (String.eqb description "") then
    if HasPrefix description "Linux Foundation" then
      ("Linux Foundation", TrimPrefix description "Linux Foundation ")
    else if HasPrefix description "VIA Labs, Inc." then
      ("VIA Labs, Inc.", TrimPrefix description "VIA Labs, Inc. ")
    else if HasPrefix description "Terminus Technology Inc." then
      ("Terminus Technology Inc.",
       TrimPrefix description "Terminus Technology Inc. ")
    else if HasPrefix description "Anker Innovations Limited." then
      ("Anker Innovations Limited.",
       TrimPrefix description "Anker Innovations Limited. ")
    else if HasPrefix description "Valve Software" then
      ("Valve Software", TrimPrefix description "Valve Software ")
    else if HasPrefix description "ASIX Electronics Corp." then
      ("ASIX Electronics Corp.",
       TrimPrefix description "ASIX Electronics Corp. ")
    else if HasPrefix description "Intel Corp." then
      ("Intel Corp.", TrimPrefix description "Intel Corp. ")
    else if HasPrefix description "Micro Star International" then
      ("Micro Star International",
       TrimPrefix description "Micro Star International ")
    else if HasPrefix description "Genesys Logic, Inc." then
      ("Genesys Logic, Inc.", TrimPrefix description "Genesys Logic, Inc. ")
    else if HasPrefix description "SteelSeries ApS" then
      ("SteelSeries ApS", TrimPrefix description "SteelSeries ApS ")
    else if HasPrefix description "KYE Systems Corp." then
      ("KYE Systems Corp.", TrimPrefix description "KYE Systems Corp. ")
    else
      let parts := SplitN2 description in
      (if (0 <? length parts)%nat then nth 0 parts EmptyString
       else EmptyString,
       if (1 <? length parts)%nat then nth 1 parts EmptyString
       else EmptyString)
  else (EmptyString, EmptyString).

(** The class found from the product name. *)
Definition classOfProduct (productName : string) : string :=
  let productLower := ToLower productName in
  if Contains productLower "hub" then "Hub"
  else if Contains productLower "keyboard" || Contains productLower "mouse"
  then "HID"
  else if Contains productLower "camera" then "Video"
  else if Contains productLower "audio" || Contains productLower "headset"
          || Contains productLower "arctis"
  then "Audio"
  else if Contains productLower "ethernet" || Contains productLower "ax88179"
  then "Communications"
  else if Contains productLower "bluetooth" || Contains productLower "ax200"
  then "Wireless"
  else if Contains productLower "controller" then "HID"
  else if Contains productLower "jtag" || Contains productLower "serial"
  then "Communications"
  else "Device".

(** The record built from the groups of a matching line. *)
Definition lsusbDevice (matches : list string) : USBDevice :=
  let bus := Atoi (group matches 1) in
  let address := Atoi (group matches 2) in
  let vendorID := fst (ParseUint (group matches 3) 16 16) in
  let productID := fst (ParseUint (group matches 4) 16 16) in
  let description := TrimSpace (group matches 5) in
  let '(vendorName, productName) := splitDescription description in
  let usbDevice :=
    {| VendorID := vendorID mod 2 ^ 16;
       ProductID := productID mod 2 ^ 16;
       VendorName := vendorName;
       ProductName := productName;
       Bus := bus;
       Port := 0;
       Address := address;
       Serial := "";
       Speed := "Unknown";
       Class := "";
       SubClass := "";
       Protocol := "";
       MaxPower := "";
       Children := [] |} in
  let usbDevice := set_Class (classOfProduct productName) usbDevice in
  if vendorID =? 0x1d6b then
    if productID =? 0x0002 then set_Speed "High (480 Mbps)" usbDevice
    else if productID =? 0x0003 then set_Speed "Super (5 Gbps)" usbDevice
    else usbDevice
  else usbDevice.

(** One turn of the loop over the lines: the heap and [deviceMap]. *)
Definition parseLsusbLine (st : heap * gmap (Z * Z) ptr) (line : string)
  : heap * gmap (Z * Z) ptr :=
  if String.eqb line "" then st
  else
    let matches := lsusbRe line in
    if (length matches <? 6)%nat then st
    else
      let '(h, deviceMap) := st in
      let usbDevice := lsusbDevice matches in
      let '(p, h) := new usbDevice h in
      (h, <[(Bus usbDevice, Address usbDevice) := p]> deviceMap).

(** [parseLsusbOutput], from the outcome [cmd] of running [lsusb]: the
    records are allocated in [h] and returned in the order the final loop
    visits [deviceMap]. *)
Definition parseLsusbOutput (ro : RangeOrder) (cmd : result string) (h : heap)
  : result (heap * list ptr) :=
  match cmd with
  | Err msg => Err (String.append "failed to run lsusb: " msg)
  | Ok output =>
      let lines := SplitLines output in
      let '(h, deviceMap) := foldl parseLsusbLine (h, ∅) lines in
      Ok (h, (range ro deviceMap).*2)
  end.

(** *** parseLsusbTree *)

Abbreviation nptr := nat (only parsing).

Record treeNode := mkTreeNode {
  bus : Z;
  port : Z;
  dev : Z;
  speed : string;
  parent : option nptr;
  children : list nptr
}.

Definition add_child_node (c : nptr) (n : treeNode) : treeNode :=
  mkTreeNode (bus n) (port n) (dev n) (speed n) (parent n) (children n ++ [c]).

(** The variables of the loop: the tree nodes allocated so far (a
    [*treeNode] is an index into [nodeHeap]), the map [nodes],
    [currentBusRoot] and [parentStack]. *)
Record treeState := mkTreeState {
  nodeHeap : list treeNode;
  nodes : gmap (Z * Z) nptr;
  currentBusRoot : option nptr;
  parentStack : list nptr
}.

(** The number of leading spaces of a line. *)
Fixpoint indentOf (line : string) : nat :=
  match line with
  | String c line' => if Ascii.eqb c space then S (indentOf line') else O
  | EmptyString => O
  end.

(** One turn of the loop over the lines of the tree listing. The loop that
    pops [parentStack] while it is longer than [level] leaves its first
    [level] entries. *)
Definition parseTreeLine (st : treeState) (line : string) : treeState :=
  if String.eqb line "" then st
  else
    let indent := indentOf line in
    let level := (indent / 4)%nat in
    if HasPrefix (TrimSpace line) "/:" then
      let matches := busRe line in
      if (4 <=? length matches)%nat then
        let bus := Atoi (group matches 1) in
        let port := Atoi (group matches 2) in
        let dev := Atoi (group matches 3) in
        let speed :=
          if (4 <? length matches)%nat then group matches 4 else EmptyString in
        let node := mkTreeNode bus port dev speed None [] in
        let p := length (nodeHeap st) in
        mkTreeState (nodeHeap st ++ [node]) (<[(bus, dev) := p]> (nodes st))
          (Some p) [p]
      else st
    else if Contains line "Port" then
      let matches := portRe line in
      match
        match currentBusRoot st with
        | Some r => nodeHeap st !! (r : nat)
        | None => None
        end
      with
      | Some root =>
          if (3 <=? length matches)%nat then
            let port := Atoi (group matches 1) in
            let dev := Atoi (group matches 2) in
            let speed :=
              if (3 <? length matches)%nat then group matches 3
              else EmptyString in
            let parentStack := take level (parentStack st) in
            let parent := last parentStack in
            let node := mkTreeNode (bus root) port dev speed parent [] in
            let p := length (nodeHeap st) in
            let heap := nodeHeap st ++ [node] in
            let heap :=
              match parent with
              | Some q => alter (add_child_node p) q heap
              | None => heap
              end in
            let nodeKey := (bus root, dev) in
            match nodes st !! nodeKey with
            | Some _ =>
                mkTreeState heap (nodes st) (currentBusRoot st) parentStack
            | None =>
                mkTreeState heap (<[nodeKey := p]> (nodes st))
                  (currentBusRoot st)
                  (if (length parentStack <=? level)%nat
                   then parentStack ++ [p]
                   else <[level := p]> parentStack)
            end
          else st
      | None => st
      end
    else st.

(** [parseLsusbTree], from the outcome [cmd] of running [lsusb -t]: the
    tree nodes and the map from (bus, device) to them. *)
Definition parseLsusbTree (cmd : result string)
  : result (list treeNode * gmap (Z * Z) nptr) :=
  match cmd with
  | Err msg => Err (String.append "failed to run lsusb -t: " msg)
  | Ok output =>
      let st :=
        foldl parseTreeLine (mkTreeState [] ∅ None []) (SplitLines output) in
      Ok (nodeHeap st, nodes st)
  end.

(** *** mergeHierarchy *)

(** [convertSpeed]. *)
Definition convertSpeed (speed : string) : string :=
  if String.eqb speed "1.5M" then "Low (1.5 Mbps)"
  else if String.eqb speed "12M" then "Full (12 Mbps)"
  else if String.eqb speed "480M" then "High (480 Mbps)"
  else if String.eqb speed "5000M" then "Super (5 Gbps)"
  else if String.eqb speed "10000M" then "Super+ (10 Gbps)"
  else speed.

(** The first loop: index the devices by (bus, address), copy port and
    speed from the hierarchy, collect the root hubs. *)
Definition mergeIndex (nodeHeap : list treeNode)
    (hierarchy : gmap (Z * Z) nptr)
    (st : heap * gmap (Z * Z) ptr * gmap Z ptr) (device : ptr)
  : heap * gmap (Z * Z) ptr * gmap Z ptr :=
  let '(h, deviceMap, rootDevices) := st in
  match h !! device with
  | None => st
  | Some d =>
      let key := (Bus d, Address d) in
      let deviceMap := <[key := device]> deviceMap in
      let h :=
        match
          match hierarchy !! key with
          | Some n => nodeHeap !! (n : nat)
          | None => None
          end
        with
        | Some node =>
            let h := update (set_Port (port node)) device h in
            if negb (String.eqb (speed node) "")
            then update (set_Speed (convertSpeed (speed node))) device h
            else h
        | None => h
        end in
      let rootDevices :=
        if Address d =? 1 then <[Bus d := device]> rootDevices
        else rootDevices in
      (h, deviceMap, rootDevices)
  end.

(** The second loop, over the entries of the hierarchy: attach the device
    of a node under the device of the node's parent. *)
Definition mergeAttach (nodeHeap : list treeNode)
    (deviceMap : gmap (Z * Z) ptr) (h : heap) (entry : (Z * Z) * nptr)
  : heap :=
  let '(key, n) := entry in
  match deviceMap !! key with
  | None => h
  | Some device =>
      match
        match nodeHeap !! (n : nat) with
        | Some node =>
            match parent node with
            | Some q => nodeHeap !! (q : nat)
            | None => None
            end
        | None => None
        end
      with
      | Some pnode =>
          match deviceMap !! (bus pnode, dev pnode) with
          | Some parent => AddChild parent device h
          | None => h
          end
      | None => h
      end
  end.

(** The loops of the branch taken when no root device was collected. *)
Definition fallbackRoots (h : heap) (rootDevices : gmap Z ptr) (device : ptr)
  : gmap Z ptr :=
  match h !! device with
  | Some d =>
      if Address d =? 1 then <[Bus d := device]> rootDevices else rootDevices
  | None => rootDevices
  end.

Definition fallbackAttach (rootDevices : gmap Z ptr) (h : heap) (device : ptr)
  : heap :=
  match h !! device with
  | Some d =>
      if negb (Address d =? 1) then
        match rootDevices !! Bus d with
        | Some root => AddChild root device h
        | None => h
        end
      else h
  | None => h
  end.

(** [mergeHierarchy]: the heap after the merge and the roots returned.
    [ro 0] orders the loop over the hierarchy, [ro 1] and [ro 2] the two
    loops over [rootDevices]. *)
Definition mergeHierarchy (ro : nat -> RangeOrder) (devices : list ptr)
    (nodeHeap : list treeNode) (hierarchy : gmap (Z * Z) nptr) (h : heap)
  : heap * list ptr :=
  let '(h, deviceMap, rootDevices) :=
    foldl (mergeIndex nodeHeap hierarchy) (h, ∅, ∅) devices in
  let h := foldl (mergeAttach nodeHeap deviceMap) h (range (ro 0%nat) hierarchy) in
  let result := (range (ro 1%nat) rootDevices).*2 in
  if (length result =? 0)%nat then
    let rootDevices := foldl (fallbackRoots h) rootDevices devices in
    let h := foldl (fallbackAttach rootDevices) h devices in
    (h, result ++ (range (ro 2%nat) rootDevices).*2)
  else (h, result).

(** [getDevicesViaLsusb]. *)
Definition getDevicesViaLsusb (ro : nat -> RangeOrder)
    (lsusb lsusb_t : result string) (h : heap) : result (heap * list ptr) :=
  match parseLsusbOutput (ro 0%nat) lsusb h with
  | Err msg => Err msg
  | Ok (h, devices) =>
      match parseLsusbTree lsusb_t with
      | Err _ => Ok (h, devices)
      | Ok (nodeHeap, hierarchy) =>
          Ok (mergeHierarchy (fun i => ro (S i)) devices nodeHeap hierarchy h)
      end
  end.

(** *** The libusb backend *)

(** The speed codes of gousb, which are those of libusb. *)
Definition SpeedUnknown : Z := 0.
Definition SpeedLow : Z := 1.
Definition SpeedFull : Z := 2.
Definition SpeedHigh : Z := 3.
Definition SpeedSuper : Z := 4.

(** [getSpeedString]. *)
Definition getSpeedString (speed : Z) : string :=
  if speed =? SpeedLow then "Low (1.5 Mbps)"
  else if speed =? SpeedFull then "Full (12 Mbps)"
  else if speed =? SpeedHigh then "High (480 Mbps)"
  else if speed =? SpeedSuper then "Super (5 Gbps)"
  else "Unknown".

(** The map [classNames] of [getClassString]. *)
Definition classNames : gmap Z string :=
  list_to_map
    [(0x00, "Device"); (0x01, "Audio"); (0x02, "Communications");
     (0x03, "HID"); (0x05, "Physical"); (0x06, "Image"); (0x07, "Printer");
     (0x08, "Mass Storage"); (0x09, "Hub"); (0x0a, "CDC Data");
     (0x0b, "Smart Card"); (0x0d, "Content Security"); (0x0e, "Video");
     (0x0f, "Personal Healthcare"); (0x10, "Audio/Video");
     (0xdc, "Diagnostic"); (0xe0, "Wireless"); (0xef, "Miscellaneous");
     (0xfe, "Application Specific"); (0xff, "Vendor Specific")]%string.

(** [getClassString]; a [gousb.Class] is the 8-bit class code, which the
    verb "%02x" prints as a number. *)
Definition getClassString (class : Z) : string :=
  match classNames !! class with
  | Some name => name
  | None => String.append "Class " (fmt_02x class)
  end.

(** [getUSBVersion], [getDefaultSpeedForBus], [getProductIDForUSBVersion]. *)
Definition getUSBVersion (busNum : Z) : Z :=
  if busNum <=? 2 then 2 else 3.

Definition getDefaultSpeedForBus (busNum : Z) : string :=
  if busNum <=? 2 then "High (480 Mbps)" else "Super (5 Gbps)".

Definition getProductIDForUSBVersion (busNum : Z) : Z :=
  if busNum <=? 2 then 0x0002 else 0x0003.

(** [organizeHierarchy]: one turn of the loop over [deviceMap], and the
    loop. *)
Definition organizeStep (deviceMap : gmap (Z * Z) ptr)
    (rootDevices : gmap Z ptr) (h : heap) (entry : (Z * Z) * ptr) : heap :=
  let device := entry.2 in
  match h !! device with
  | Some d =>
      if Port d >? 0 then
        match deviceMap !! (Bus d, Port d) with
        | Some parent => AddChild parent device h
        | None =>
            match rootDevices !! Bus d with
            | Some root => AddChild root device h
            | None => h
            end
        end
      else h
  | None => h
  end.

Definition organizeHierarchy (ro : RangeOrder) (deviceMap : gmap (Z * Z) ptr)
    (rootDevices : gmap Z ptr) (h : heap) : heap :=
  foldl (organizeStep deviceMap rootDevices) h (range ro deviceMap).

(** An opened device as gousb presents it: the fields of its descriptor
    that the detector reads, the outcome of reading its three string
    descriptors, and the [MaxPower] of its configurations in the order the
    loop over [desc.Configs] visits them. *)
Record Device := mkDevice {
  dBus : Z;
  dAddress : Z;
  dPort : Z;
  dSpeed : Z;
  dVendor : Z;
  dProduct : Z;
  dClass : Z;
  dSubClass : Z;
  dProtocol : Z;
  dConfigs : list Z;
  dManufacturer : result string;
  dProductString : result string;
  dSerialNumber : result string
}.

(** The [MaxPower] text: that of the first configuration met with a
    positive value. *)
Fixpoint maxPowerOf (configs : list Z) : string :=
  match configs with
  | [] => EmptyString
  | mp :: configs' =>
      if mp >? 0 then String.append (fmt_d mp) "mA" else maxPowerOf configs'
  end.

(** The record built for an enumerated device. *)
Definition libusbDevice (dv : Device) : USBDevice :=
  {| VendorID := dVendor dv mod 2 ^ 16;
     ProductID := dProduct dv mod 2 ^ 16;
     VendorName :=
       match dManufacturer dv with Ok m => m | Err _ => EmptyString end;
     ProductName :=
       match dProductString dv with Ok m => m | Err _ => EmptyString end;
     Bus := dBus dv;
     Port := dPort dv;
     Address := dAddress dv;
     Serial :=
       match dSerialNumber dv with Ok m => m | Err _ => EmptyString end;
     Speed := getSpeedString (dSpeed dv);
     Class := getClassString (dClass dv);
     SubClass := fmt_02x (dSubClass dv);
     Protocol := fmt_02x (dProtocol dv);
     MaxPower := maxPowerOf (dConfigs dv);
     Children := [] |}.

(** The root hub synthesized for a bus. *)
Definition rootHubFor (busNum : Z) : USBDevice :=
  {| VendorID := 0x1d6b;
     ProductID := getProductIDForUSBVersion busNum;
     VendorName := "Linux Foundation";
     ProductName :=
       String.append "USB "
         (String.append (fmt_d (getUSBVersion busNum)) ".0 Root Hub");
     Bus := busNum;
     Port := 0;
     Address := 1;
     Serial := "";
     Speed := getDefaultSpeedForBus busNum;
     Class := "Hub";
     SubClass := "00";
     Protocol := "00";
     MaxPower := "";
     Children := [] |}.

(** The state of [getDevicesViaLibusb]: the heap and the maps
    [rootDevices], [deviceMap] and [busNumbers]. *)
Definition libusbState : Type :=
  heap * gmap Z ptr * gmap (Z * Z) ptr * gmap Z bool.

(** The loop over the enumerated devices. *)
Definition libusbTrack (st : libusbState) (dv : Device) : libusbState :=
  let '(h, rootDevices, deviceMap, busNumbers) := st in
  let busNumbers := <[dBus dv := true]> busNumbers in
  let '(p, h) := new (libusbDevice dv) h in
  (h, rootDevices, <[(dBus dv, dAddress dv) := p]> deviceMap, busNumbers).

(** The loop that gives each bus seen its root hub. *)
Definition libusbRoot (st : libusbState) (entry : Z * bool) : libusbState :=
  let '(h, rootDevices, deviceMap, busNumbers) := st in
  let busNum := entry.1 in
  match rootDevices !! busNum with
  | Some _ => st
  | None =>
      let '(p, h) := new (rootHubFor busNum) h in
      (h, <[busNum := p]> rootDevices, <[(busNum, 1) := p]> deviceMap,
       busNumbers)
  end.

(** The loop [for i := 1; i <= 2; i++] that creates the virtual root hubs
    when no bus was seen. *)
Definition libusbVirtual (st : libusbState) (i : Z) : libusbState :=
  let '(h, rootDevices, deviceMap, busNumbers) := st in
  let '(p, h) := new (rootHubFor i) h in
  (h, <[i := p]> rootDevices, <[(i, 1) := p]> deviceMap, busNumbers).

(** [getDevicesViaLibusb], from the outcome [enum] of [OpenDevices].
    [ro 0] orders the loop over [busNumbers], [ro 1] the loop of
    [organizeHierarchy] and [ro 2] the final loop over [rootDevices]. *)
Definition getDevicesViaLibusb (ro : nat -> RangeOrder)
    (enum : result (list Device)) (h : heap) : result (heap * list ptr) :=
  match enum with
  | Err msg =>
      if Contains msg "bad access" then Err "permission denied"
      else Err (String.append "failed to enumerate devices: " msg)
  | Ok devices =>
      let st := foldl libusbTrack (h, ∅, ∅, ∅) devices in
      let busNumbers := st.2 in
      let st := foldl libusbRoot st (range (ro 0%nat) busNumbers) in
      let st :=
        if (size busNumbers =? 0)%nat then foldl libusbVirtual st [1; 2]
        else st in
      let '(h, rootDevices, deviceMap, _) := st in
      let h := organizeHierarchy (ro 1%nat) deviceMap rootDevices h in
      Ok (h, (range (ro 2%nat) rootDevices).*2)
  end.

(** [GetDevices] of the detector that tries libusb first and falls back to
    lsusb when access was denied. *)
Definition GetDevices (ro : nat -> RangeOrder) (enum : result (list Device))
    (lsusb lsusb_t : result string) (h : heap) : result (heap * list ptr) :=
  match getDevicesViaLibusb ro enum h with
  | Ok r => Ok r
  | Err msg =>
      if Contains msg "permission denied" || Contains msg "bad access"
      then getDevicesViaLsusb (fun i => ro (3 + i)%nat) lsusb lsusb_t h
      else Err msg
  end.

End Linux.

(** ** The darwin detector: the devices below the controllers *)

Module Profiler.
Import GoLib Models Darwin Linux.

(** An entry of the list [_items] of a controller or of a device. A list
    that is [nil] and a list that is empty are treated alike by the
    detector: the loop over either does nothing. *)
#[warnings="-register-all"]
Inductive spUSBDevice := mkItem {
  iName : string;
  iVendorID : string;
  iProductID : string;
  iManufacturer : string;
  iSerialNum : string;
  iSpeed : string;
  iCurrentAvailable : string;
  iCurrentRequired : string;
  iItems : list spUSBDevice
}.

(** The class found from the name of an item. *)
Definition classOfItem (name : string) : string :=
  let productLower := ToLower name in
  if Contains productLower "hub" then "Hub"
  else if Contains productLower "keyboard" || Contains productLower "mouse"
          || Contains productLower "trackpad"
  then "HID"
  else if Contains productLower "camera" || Contains productLower "facetime"
  then "Video"
  else if Contains productLower "audio" || Contains productLower "headphone"
          || Contains productLower "speaker"
  then "Audio"
  else if Contains productLower "ethernet" || Contains productLower "network"
  then "Communications"
  else if Contains productLower "bluetooth" then "Wireless"
  else if Contains productLower "storage" || Contains productLower "disk"
  then "Mass Storage"
  else "Device".

(** [createDeviceFromSystemProfiler]; the record it returns is fresh. *)
Definition createDeviceFromSystemProfiler (item : spUSBDevice)
    (busNumber : Z) : USBDevice :=
  let device :=
    {| VendorID := parseHexID (iVendorID item);
       ProductID := parseHexID (iProductID item);
       VendorName := iManufacturer item;
       ProductName := iName item;
       Bus := busNumber;
       Port := 0;
       Address := 0;
       Serial := iSerialNum item;
       Speed := convertSystemProfilerSpeed (iSpeed item);
       Class := "";
       SubClass := "";
       Protocol := "";
       MaxPower := "";
       Children := [] |} in
  let device := set_Class (classOfItem (iName item)) device in
  if negb (String.eqb (iCurrentRequired item) "")
  then set_MaxPower (iCurrentRequired item) device
  else device.

(** One turn of the loop of [processSystemProfilerItems]: the device of
    the item is created with the bus of [parent] and appended to its
    children, then the items below it are processed with the device as
    their parent. *)
Fixpoint processItem (item : spUSBDevice) (parent : ptr) (h : heap)
    {struct item} : heap :=
  match item with
  | mkItem _ _ _ _ _ _ _ _ items =>
      match h !! parent with
      | None => h
      | Some par =>
          let '(device, h) :=
            new (createDeviceFromSystemProfiler item (Bus par)) h in
          let h := AddChild parent device h in
          (fix loop (items : list spUSBDevice) (h : heap) : heap :=
             match items with
             | [] => h
             | it :: rest => loop rest (processItem it device h)
             end) items h
      end
  end.

(** [processSystemProfilerItems]. *)
Definition processSystemProfilerItems (items : list spUSBDevice)
    (parent : ptr) (h : heap) : heap :=
  foldl (fun h item => processItem item parent h) h items.

(** The decoded output of system_profiler: the controllers, each with its
    list [_items]. *)
Definition spData : Type := list (spUSBController * list spUSBDevice).

(** One turn of the loop over the controllers: the heap, [result] and
    [busNumber]. *)
Definition profilerStep (st : heap * list ptr * Z)
    (c : spUSBController * list spUSBDevice) : heap * list ptr * Z :=
  let '(h, result, busNumber) := st in
  let '(rootHub, h) := new (createRootHubFromController c.1 busNumber) h in
  let h := processSystemProfilerItems c.2 rootHub h in
  (h, result ++ [rootHub], busNumber + 1).

(** [getDevicesViaSystemProfiler], from the outcome [cmd] of running
    system_profiler and the decoder [unmarshal] of its output
    ([json.Unmarshal] into the controller type). *)
Definition getDevicesViaSystemProfiler (cmd : result string)
    (unmarshal : string -> result spData) (h : heap)
  : result (heap * list ptr) :=
  match cmd with
  | Err msg => Err (String.append "failed to run system_profiler: " msg)
  | Ok output =>
      match unmarshal output with
      | Err msg =>
          Err (String.append "failed to parse system_profiler output: " msg)
      | Ok data =>
          let '(h, result, _) := foldl profilerStep (h, [], 1) data in
          Ok (h, result)
      end
  end.

(** [GetDevices] of the darwin detector. *)
Definition GetDevices (cmd : result string)
    (unmarshal : string -> result spData) (h : heap)
  : result (heap * list ptr) :=
  getDevicesViaSystemProfiler cmd unmarshal h.

End Profiler.

(** ** internal/tree: the formatter *)

Module Tree.
Import GoLib Models.

(** What a call comes to: it returns, it is still running when the depth
    [fuel] allowed for the recursion is used up, or it reads through a
    pointer that is not in the heap (which does not arise for the
    pointers the detectors return). *)
Inductive outcome (A : Type) :=
  | Done (a : A)
  | OutOfFuel
  | Invalid.
Arguments Done {A} a.
Arguments OutOfFuel {A}.
Arguments Invalid {A}.

(** [getDeviceString]. *)
Definition getDeviceString (device : USBDevice) : string :=
  let name := GetDisplayName device in
  let idString := GetIDString device in
  if negb (String.eqb (Class device) "")
     && negb (String.eqb (Class device) "Device")
  then
    String.append name
      (String.append " ["
         (String.append idString
            (String.append "] (" (String.append (Class device) ")"))))
  else String.append name (String.append " [" (String.append idString "]")).

(** [getDetailLines]. *)
Definition getDetailLines (device : USBDevice) (prefix : string)
  : list string :=
  let lines := [] in
  let lines :=
    if negb (String.eqb (Serial device) "")
    then lines ++ [String.append prefix
                     (String.append "├─ Serial: " (Serial device))]
    else lines in
  let lines :=
    if negb (String.eqb (Speed device) "")
       && negb (String.eqb (Speed device) "Unknown")
    then lines ++ [String.append prefix
                     (String.append "├─ Speed: " (Speed device))]
    else lines in
  let lines :=
    if negb (String.eqb (MaxPower device) "")
    then lines ++ [String.append prefix
                     (String.append "├─ Max Power: " (MaxPower device))]
    else lines in
  lines ++
    [String.append prefix
       (String.append "└─ Bus "
          (String.append (fmt_d (Bus device))
             (String.append ", Port "
                (String.append (fmt_d (Port device))
                   (String.append ", Address " (fmt_d (Address device)))))))].

(** The loop [for i, x := range xs] that appends the lines of each entry,
    the entry at index [len(xs)-1] being the last one; [i] is the index
    of the head of [xs] and [n] the length of the whole slice. *)
Fixpoint formatEach (format : ptr -> bool -> outcome (list string))
    (xs : list ptr) (i n : nat) (lines : list string)
  : outcome (list string) :=
  match xs with
  | [] => Done lines
  | x :: rest =>
      match format x (i =? n - 1)%nat with
      | Done xLines => formatEach format rest (S i) n (lines ++ xLines)
      | OutOfFuel => OutOfFuel
      | Invalid => Invalid
      end
  end.

Definition connectorOf (isLast : bool) : string :=
  if isLast then "└── " else "├── ".

Definition childIndent (isLast : bool) : string :=
  if isLast then "    " else "│   ".

(** [FormatDevice] of a formatter with the given [verbose] flag, with at
    most [fuel] nested calls. *)
Fixpoint FormatDevice (fuel : nat) (verbose : bool) (h : heap)
    (device : ptr) (prefix : string) (isLast : bool) {struct fuel}
  : outcome (list string) :=
  match fuel with
  | O => OutOfFuel
  | S fuel' =>
      match h !! device with
      | None => Invalid
      | Some d =>
          let connector := connectorOf isLast in
          let deviceLine :=
            String.append prefix
              (String.append connector (getDeviceString d)) in
          let lines := [deviceLine] in
          let lines :=
            if verbose then
              let detailPrefix := String.append prefix (childIndent isLast) in
              lines ++ getDetailLines d detailPrefix
            else lines in
          let childPrefix := String.append prefix (childIndent isLast) in
          formatEach
            (fun child isLastChild =>
               FormatDevice fuel' verbose h child childPrefix isLastChild)
            (Children d) 0 (length (Children d)) lines
      end
  end.

(** [FormatTree]. *)
Definition FormatTree (fuel : nat) (verbose : bool) (h : heap)
    (devices : list ptr) : outcome string :=
  if (length devices =? 0)%nat then Done "No USB devices found"%string
  else
    let allLines := ["USB Device Tree:"; ""]%string in
    match
      formatEach
        (fun device isLast => FormatDevice fuel verbose h device "" isLast)
        devices 0 (length devices) allLines
    with
    | Done allLines => Done (Join allLines (String newline EmptyString))
    | OutOfFuel => OutOfFuel
    | Invalid => Invalid
    end.

End Tree.

(** ** Notions used to state the properties *)

Module Notions.
Import GoLib Models Linux.

(** The order in which a slice would be visited: the entries as
    [map_to_list] lists them. *)
Definition sliceOrder : RangeOrder :=
  {| shuffle := fun _ l => l;
     shuffle_perm := fun _ l => Permutation_refl l |}.




(** The children of the record at [p]. *)
Definition children_of (h : heap) (p : ptr) : list ptr :=
  match h !! p with
  | Some d => Children d
  | None => []
  end.


(** A record with further children appended. *)
Definition with_children (cs : list ptr) (d : USBDevice) : USBDevice :=
  set_Children (Children d ++ cs) d.

(** Attaching a list of (parent, child) edges, in order. *)
Definition add_edges (es : list (ptr * ptr)) (h : heap) : heap :=
  foldl (fun h e => AddChild e.1 e.2 h) h es.

(** The children that the edges [es] give to [q], in order. *)
Definition targets (es : list (ptr * ptr)) (q : ptr) : list ptr :=
  (filter (fun e => e.1 = q) es).*2.

(** What identifies a record: its bus and address. *)
Definition ident (d : USBDevice) : Z * Z := (Bus d, Address d).

(** A record without its children. *)
Definition skeleton (d : USBDevice) : USBDevice := set_Children [] d.

(** The rule of [organizeHierarchy] for one entry of [deviceMap], read on
    the records of [h]: a record with a positive port goes under the
    record at (bus, port) when there is one, and otherwise under the root
    of its bus when there is one. *)
Definition organizeEdge (deviceMap : gmap (Z * Z) ptr)
    (rootDevices : gmap Z ptr) (h : heap) (entry : (Z * Z) * ptr)
  : option (ptr * ptr) :=
  match h !! entry.2 with
  | Some d =>
      if Port d >? 0 then
        match deviceMap !! (Bus d, Port d) with
        | Some parent => Some (parent, entry.2)
        | None =>
            match rootDevices !! Bus d with
            | Some root => Some (root, entry.2)
            | None => None
            end
        end
      else None
  | None => None
  end.

(** The records of [h] and [h0] agree except for their children. *)
Definition same_skeleton (h h0 : heap) : Prop :=
  forall p : ptr, skeleton <$> h !! p = skeleton <$> h0 !! p.




(** A device on bus 1 whose port number equals its address, 2. *)
Definition samePortDevice : Device :=
  mkDevice 1 2 2 SpeedHigh 0x046d 0xc52b 0 0 0 [] (Err "") (Err "") (Err "").


(** What the first loop of [mergeHierarchy] does to a record: port and
    speed are copied from the hint node of its bus and address, if there
    is one. *)
Definition hintUpdate (nodeHeap : list treeNode)
    (hierarchy : gmap (Z * Z) nptr) (d : USBDevice) : USBDevice :=
  match
    match hierarchy !! ident d with
    | Some n => nodeHeap !! n
    | None => None
    end
  with
  | Some node =>
      let d := set_Port (port node) d in
      if negb (String.eqb (speed node) "")
      then set_Speed (convertSpeed (speed node)) d
      else d
  | None => d
  end.

Definition applyHints (nodeHeap : list treeNode)
    (hierarchy : gmap (Z * Z) nptr) (devices : list ptr) (h : heap) : heap :=
  foldl (fun h p => alter (hintUpdate nodeHeap hierarchy) p h) h devices.








(** The same two lines without the marker of a root line. *)
Definition scenarioD_bare : string :=
  String.append "Bus 1.Port 1: Dev 1"
    (String newline "    Port 2: Dev 3, 480M").



(** The device line of Scenario B. *)
Definition appleLine : string :=
  "Bus 001 Device 002: ID 05ac:027e Apple Inc. Internal Keyboard".

(** The table of vendor names of more than one word, in the order the
    adapter tries them. *)
Definition vendorPrefixes : list string :=
  ["Linux Foundation"; "VIA Labs, Inc."; "Terminus Technology Inc.";
   "Anker Innovations Limited."; "Valve Software"; "ASIX Electronics Corp.";
   "Intel Corp."; "Micro Star International"; "Genesys Logic, Inc.";
   "SteelSeries ApS"; "KYE Systems Corp."]%string.

(** Splitting a description by a table of vendor names: the first name of
    the table that the description starts with is the vendor and what
    follows it and a space is the product; when no name fits, the first
    word is the vendor and the rest the product. *)
Definition splitBy (table : list string) (description : string)
  : string * string :=
  if String.eqb description "" then (EmptyString, EmptyString)
  else
    match List.find (HasPrefix description) table with
    | Some vendor =>
        (vendor, TrimPrefix description (String.append vendor " "))
    | None =>
        match cutSpace description with
        | Some (vendor, product) => (vendor, product)
        | None => (description, EmptyString)
        end
    end.

(** A line from which [parseLsusbOutput] builds a record, and the
    record. *)
Definition line_matches (line : string) : bool :=
  negb (String.eqb line "") && (6 <=? length (lsusbRe line))%nat.

Definition lineRecord (line : string) : USBDevice :=
  lsusbDevice (lsusbRe line).

Definition matchingLines (output : string) : list string :=
  filter (fun line => line_matches line = true) (SplitLines output).

Definition matchingRecords (output : string) : list USBDevice :=
  lineRecord <$> matchingLines output.

(** The record at position [i] of [recs] is the last one of its bus and
    address. *)
Definition is_last_of (recs : list USBDevice) (i : nat) (r : USBDevice)
  : Prop :=
  recs !! i = Some r
  /\ forall (j : nat) (r' : USBDevice),
       (i < j)%nat -> recs !! j = Some r' -> ident r' <> ident r.

(** Two device lines for the same bus and address. *)
Definition sameAddressLines : string :=
  String.append "Bus 001 Device 002: ID 05ac:027e Apple Inc. Internal Keyboard"
    (String newline "Bus 001 Device 002: ID 046d:c52b Logitech USB Receiver").

(** The map keys as the adapters format them, and the reading of the
    number at the start of a key. *)
Definition devKey (bus address : Z) : string :=
  String.append (fmt_d bus) (String "-" (fmt_d address)).

Definition busKey (bus : Z) : string :=
  String.append "bus-" (fmt_d bus).

Definition spanNumber (s : string) : string * string :=
  match s with
  | String c s' =>
      if Ascii.eqb c "-" then
        let '(a, r) := span is_digit s' in (String c a, r)
      else span is_digit s
  | EmptyString => (EmptyString, EmptyString)
  end.

(** A non-empty run of decimal digits: [span] takes it whole in front of
    a dash. *)
Definition digits (s : string) : Prop :=
  s <> EmptyString
  /\ forall rest : string,
       span is_digit (String.append s (String "-" rest))
       = (s, String "-" rest).

End Notions.

(** ** Notions used to state the properties of the darwin detector and of
    the formatter *)

Module Forest.
Import GoLib Models Darwin Linux Notions Profiler Tree.

(** The number of items of a tree of items, and of a list of them. *)
Fixpoint itemCount (item : spUSBDevice) : nat :=
  match item with
  | mkItem _ _ _ _ _ _ _ _ items =>
      S ((fix count (items : list spUSBDevice) : nat :=
            match items with
            | [] => O
            | it :: rest => (itemCount it + count rest)%nat
            end) items)
  end.

Definition itemsCount (items : list spUSBDevice) : nat :=
  sum_list (itemCount <$> items).

(** The record at [p] is the device of [item] on bus [bus], and its
    children are, in order, the devices of the items below [item]. *)
#[warnings="-register-all"]
Inductive itemAt (h : heap) (bus : Z) : ptr -> spUSBDevice -> Prop :=
  | itemAt_intro (p : ptr) (item : spUSBDevice) (d : USBDevice) :
      h !! (p : nat) = Some d ->
      skeleton d = createDeviceFromSystemProfiler item bus ->
      Forall2 (itemAt h bus) (Children d) (iItems item) ->
      itemAt h bus p item.

(** The records [B], allocated from index [base] on, hold the trees of
    [items] at the pointers [ptrs]: each record of [B] is pointed to once,
    from [ptrs] or from a record of [B] allocated before it. *)
Definition block (bus : Z) (base : nat) (ptrs : list ptr)
    (items : list spUSBDevice) (B : list USBDevice) : Prop :=
  length B = itemsCount items
  /\ (forall X : heap,
        length X = base -> Forall2 (itemAt (X ++ B) bus) ptrs items)
  /\ ptrs ++ concat (Children <$> B) ≡ₚ seq base (length B)
  /\ (forall (i : nat) (d : USBDevice) (c : ptr),
        B !! i = Some d -> c ∈ Children d -> (base + i < c)%nat).

(** [p] is below [q]: a child of [q], or below one. *)
Inductive below (h : heap) (q : ptr) : ptr -> Prop :=
  | below_child (p : ptr) : p ∈ children_of h q -> below h q p
  | below_step (c p : ptr) :
      c ∈ children_of h q -> below h c p -> below h q p.

(** Every pointer held in a list of children is in the heap. *)
Definition closed (h : heap) : Prop :=
  forall (q p : ptr), p ∈ children_of h q -> is_Some (h !! (p : nat)).

(** A decoded output with two controllers: one with a hub that holds a
    keyboard, and one without items. *)
Definition sampleData : spData :=
  [ (mkController "USB31Bus" "" "" "" "" "" "" "" "",
     [ mkItem "USB2.0 Hub" "0x05e3" "0x0610" "GenesysLogic" "" "high_speed"
         "" "100"
         [ mkItem "Keyboard" "0x046d" "0xc31c" "Logitech" "" "low_speed" ""
             "90" [] ] ]);
    (mkController "USB20Bus" "AppleUSBEHCI" "" "" "" "" "" "" "", []) ].

(** The forest the darwin detector builds from [sampleData]. *)
Definition sampleForest : heap * list ptr :=
  match Profiler.GetDevices (Ok "") (fun _ => Ok sampleData) [] with
  | Ok r => r
  | Err _ => ([], [])
  end.

(** The records the libusb backend leaves for the device whose port
    number is its address. *)
Definition samePortForest : heap :=
  match
    getDevicesViaLibusb (fun _ => sliceOrder) (Ok [samePortDevice]) []
  with
  | Ok r => r.1
  | Err _ => []
  end.

End Forest.

(** ** Notions used to state the properties of the texts read and
    written *)

Module Formats.
Import GoLib Models Darwin Linux Notions.

(** [f] holds of the [n] integers from [z] on. *)
Fixpoint allFrom (f : Z -> bool) (n : nat) (z : Z) : bool :=
  match n with
  | O => true
  | S n' => f z && allFrom f n' (z + 1)
  end.

Fixpoint all_chars (P : ascii -> bool) (s : string) : bool :=
  match s with
  | EmptyString => true
  | String c s' => P c && all_chars P s'
  end.

Definition not_newline (c : ascii) : bool := negb (Ascii.eqb c newline).

(** The verb "%03d" for a number that is not negative. *)
Definition fmt_03d (n : Z) : string :=
  let s := fmt_d n in
  String.append (zeros (3 - String.length s)) s.

(** A device line as lsusb prints it, with the format
    "Bus %03u Device %03u: ID %04x:%04x " followed by the description. *)
Definition lsusbLine (bus address vendorID productID : Z)
    (description : string) : string :=
  String.append "Bus "
    (String.append (fmt_03d bus)
       (String.append " Device "
          (String.append (fmt_03d address)
             (String.append ": ID "
                (String.append (fmt_04x vendorID)
                   (String.append ":"
                      (String.append (fmt_04x productID)
                         (String.append " " description)))))))).

(** What is checked of the text of each 16-bit identifier and of each
    number below 1000. *)
Definition check_04x (n : Z) : bool :=
  let s := fmt_04x n in
  (String.length s =? 4)%nat && all_chars is_lower_hex s
  && (hex_value s =? n) && negb (HasPrefix s "0x").

Definition check_03d (n : Z) : bool :=
  let s := fmt_03d n in
  (String.length s =? 3)%nat && all_chars is_digit s && (Atoi s =? n).

End Formats.

(** * Properties *)

Import GoLib Models Darwin Linux Notions.

(** ** The keys of the maps *)

Section Keys.

Lemma digits_cons (c : ascii) (s : string) :
  is_digit c = true -> s = EmptyString \/ digits s -> digits (String c s).
Proof.
  intros Hc Hs. split; [done|]. intros rest. simpl.
  rewrite Hc. destruct Hs as [->|[_ Hs]]; [done|]. by rewrite Hs.
Qed.

Lemma digits_head (s : string) :
  digits s -> exists c s', s = String c s' /\ is_digit c = true.
Proof.
  intros [Hne Hs]. destruct s as [|c s']; [done|]. exists c, s'.
  split; [done|]. specialize (Hs ""). simpl in Hs.
  by destruct (is_digit c).
Qed.

Lemma is_digit_pretty_N_char (x : N) : is_digit (pretty_N_char x) = true.
Proof. unfold pretty_N_char. by repeat case_match. Qed.

Lemma pretty_N_go_digits (x : N) :
  forall s : string, digits s -> digits (pretty_N_go x s).
Proof.
  induction (N.lt_wf_0 x) as [x _ IH]. intros s Hs.
  destruct (decide (x = 0)%N) as [->|Hx].
  - by rewrite pretty_N_go_0.
  - rewrite pretty_N_go_step by lia. apply IH.
    + apply N.div_lt; lia.
    + apply digits_cons; [apply is_digit_pretty_N_char|by right].
Qed.

Lemma pretty_N_digits (x : N) : digits (pretty x).
Proof.
  unfold pretty, pretty_N. destruct (decide (x = 0)%N).
  - apply digits_cons; [done|by left].
  - rewrite pretty_N_go_step by lia. apply pretty_N_go_digits.
    apply digits_cons; [apply is_digit_pretty_N_char|by left].
Qed.

Lemma spanNumber_digits (s rest : string) :
  digits s ->
  spanNumber (String.append s (String "-" rest)) = (s, String "-" rest).
Proof.
  intros Hs. destruct (digits_head s Hs) as (c & s' & -> & Hc).
  destruct Hs as [_ Hs]. specialize (Hs rest).
  change (String.append (String c s') (String "-" rest))
    with (String c (String.append s' (String "-" rest))) in *.
  unfold spanNumber.
  destruct (Ascii.eqb_spec c "-") as [->|_]; [done|exact Hs].
Qed.

Lemma spanNumber_fmt_d (z : Z) (rest : string) :
  spanNumber (String.append (fmt_d z) (String "-" rest))
  = (fmt_d z, String "-" rest).
Proof.
  unfold fmt_d, pretty, pretty_Z. destruct z as [|p|p].
  - reflexivity.
  - apply spanNumber_digits, (pretty_N_digits (N.pos p)).
  - destruct (pretty_N_digits (N.pos p)) as [_ Hs].
    unfold pretty, pretty_positive.
    change (String.append ("-" +:+ pretty (N.pos p)) (String "-" rest))
      with (String "-" (String.append (pretty (N.pos p)) (String "-" rest))).
    unfold spanNumber. cbn [Ascii.eqb Bool.eqb]. by rewrite Hs.
Qed.

(** The key of [deviceMap] determines bus and address, and the key of
    [rootHubs] the bus: the maps of the model, keyed by the numbers, are
    the maps of the source. *)
Lemma devKey_inj (bus address bus' address' : Z) :
  devKey bus address = devKey bus' address' ->
  bus = bus' /\ address = address'.
Proof.
  unfold devKey. intros H.
  pose proof (spanNumber_fmt_d bus (fmt_d address)) as H1.
  pose proof (spanNumber_fmt_d bus' (fmt_d address')) as H2.
  rewrite H, H2 in H1. injection H1 as Hb Ha.
  split; symmetry; by apply (inj pretty).
Qed.

Lemma busKey_inj (bus bus' : Z) : busKey bus = busKey bus' -> bus = bus'.
Proof.
  unfold busKey. intros H. injection H as H. by apply (inj pretty).
Qed.

End Keys.

(** ** Strings and numbers *)

Section HexParsing.

Lemma digit_of_hex (c : ascii) :
  match digit_of (byte_of c) with
  | Some d =>
      if d <? 16 then is_hex_digit c = true /\ d = hex_digit_value c
      else is_hex_digit c = false
  | None => is_hex_digit c = false
  end.
Proof.
  destruct c as [[] [] [] [] [] [] [] []]; vm_compute; auto.
Qed.

Lemma hex_digit_value_range (c : ascii) :
  is_hex_digit c = true -> 0 <= hex_digit_value c < 16.
Proof.
  destruct c as [[] [] [] [] [] [] [] []]; vm_compute; intuition congruence.
Qed.

Lemma hex_value_from_ge (s : string) :
  forall acc, 0 <= acc -> all_hex s = true -> acc <= hex_value_from acc s.
Proof.
  induction s as [|c s IH]; intros acc Hacc Hall; simpl in *; [lia|].
  apply andb_true_iff in Hall as [Hc Hs].
  pose proof (hex_digit_value_range c Hc).
  specialize (IH (16 * acc + hex_digit_value c) ltac:(lia) Hs). lia.
Qed.

(** The loop of [ParseUint] for base 16 and 16 bits: it ends without an
    error exactly on a run of hexadecimal digits whose value fits, and
    then returns that value. *)
Lemma ParseUint_loop_hex (s : string) :
  forall n, 0 <= n <= 65535 ->
    (all_hex s && (hex_value_from n s <=? 65535) = true ->
     ParseUint_loop 16 (2 ^ 16 - 1) ((2 ^ 64 - 1) / 16 + 1) s n =
       (hex_value_from n s, None))
    /\ (all_hex s && (hex_value_from n s <=? 65535) = false ->
        snd (ParseUint_loop 16 (2 ^ 16 - 1) ((2 ^ 64 - 1) / 16 + 1) s n)
          <> None).
Proof.
  change (2 ^ 16 - 1) with 65535.
  change ((2 ^ 64 - 1) / 16 + 1) with 1152921504606846976.
  induction s as [|c s IH]; intros n Hn.
  - simpl. destruct (Z.leb_spec n 65535); [|lia].
    split; [reflexivity | discriminate].
  - cbn [ParseUint_loop all_hex hex_value_from].
    pose proof (digit_of_hex c) as Hd.
    destruct (digit_of (byte_of c)) as [d|].
    + destruct (d <? 16) eqn:Hlt.
      * destruct Hd as [Hc ->]. rewrite Hc. cbn [andb].
        pose proof (hex_digit_value_range c Hc) as Hr.
        rewrite !Z.geb_leb, Z.gtb_ltb.
        destruct (Z.leb_spec 16 (hex_digit_value c)); [lia|].
        destruct (Z.leb_spec 1152921504606846976 n); [lia|].
        cbv zeta.
        rewrite (Z.mod_small (n * 16)) by lia.
        rewrite (Z.mod_small (n * 16 + hex_digit_value c)) by lia.
        destruct (Z.ltb_spec (n * 16 + hex_digit_value c) (n * 16)); [lia|].
        cbn [orb].
        replace (16 * n + hex_digit_value c) with (n * 16 + hex_digit_value c)
          by lia.
        destruct (Z.ltb_spec 65535 (n * 16 + hex_digit_value c)) as [Hov|Hov].
        -- assert (Hf : all_hex s
                        && (hex_value_from (n * 16 + hex_digit_value c) s
                            <=? 65535) = false).
           { destruct (all_hex s) eqn:Hs; [|reflexivity]. cbn [andb].
             apply Z.leb_gt.
             pose proof (hex_value_from_ge s (n * 16 + hex_digit_value c)
                           ltac:(lia) Hs). lia. }
           rewrite Hf. split; [discriminate | intros _; discriminate].
        -- apply IH. lia.
      * rewrite Hd. cbn [andb]. rewrite Z.geb_leb.
        apply Z.ltb_ge in Hlt.
        destruct (Z.leb_spec 16 d); [|lia].
        split; [discriminate | intros _; discriminate].
    + rewrite Hd. cbn [andb]. split; [discriminate | intros _; discriminate].
Qed.

Lemma ParseUint_hex (s : string) :
  (well_formed_id s = true -> ParseUint s 16 16 = (hex_value s, None))
  /\ (well_formed_id s = false -> snd (ParseUint s 16 16) <> None).
Proof.
  unfold ParseUint, well_formed_id, hex_value.
  destruct (String.eqb s "") eqn:He.
  - cbn [negb andb]. split; [discriminate | intros _; discriminate].
  - cbn [negb andb].
    destruct (ParseUint_loop_hex s 0 ltac:(lia)) as [H1 H2].
    change (2 ^ 16) with 65536.
    replace (hex_value_from 0 s <? 65536) with (hex_value_from 0 s <=? 65535)
      by (destruct (Z.leb_spec (hex_value_from 0 s) 65535),
                   (Z.ltb_spec (hex_value_from 0 s) 65536); lia).
    split; [exact H1 | exact H2].
Qed.

Lemma parseHexID_spec (hexStr : string) :
  parseHexID hexStr =
    if well_formed_id (TrimPrefix hexStr "0x")
    then hex_value (TrimPrefix hexStr "0x") else 0.
Proof.
  unfold parseHexID.
  destruct (String.eqb hexStr "") eqn:He.
  - apply String.eqb_eq in He. subst. reflexivity.
  - destruct (ParseUint_hex (TrimPrefix hexStr "0x")) as [H1 H2].
    destruct (well_formed_id (TrimPrefix hexStr "0x")) eqn:Hw.
    + rewrite (H1 eq_refl). apply Z.mod_small.
      unfold well_formed_id in Hw.
      apply andb_true_iff in Hw as [Hw Hlt].
      apply andb_true_iff in Hw as [_ Hall].
      apply Z.ltb_lt in Hlt.
      pose proof (hex_value_from_ge _ 0 ltac:(lia) Hall).
      unfold hex_value in *. lia.
    + specialize (H2 eq_refl).
      destruct (ParseUint (TrimPrefix hexStr "0x") 16 16) as [v [e|]];
        [reflexivity | contradiction].
Qed.

End HexParsing.

(** ** The darwin detector *)

Lemma createRootHub_ids (controller : spUSBController) (busNumber : Z) :
  let isUSB3 := Contains (cName controller) "31"
                || Contains (cHostController controller) "XHCI" in
  let rootHub := createRootHubFromController controller busNumber in
  VendorID rootHub =
    (if parseHexID (cVendorID controller) =? 0 then 0x05ac
     else parseHexID (cVendorID controller))
  /\ ProductID rootHub =
    (if parseHexID (cProductID controller) =? 0
     then (if isUSB3 then 0x0003 else 0x0002)
     else parseHexID (cProductID controller)).
Proof.
  unfold createRootHubFromController. cbv zeta.
  split;
    repeat match goal with
           | |- context [if ?b then _ else _] => destruct b
           end; reflexivity.
Qed.

(** C10. [parseHexID] is a total function that never signals an error:
    after an optional prefix 0x is removed, a string that is empty, that
    holds a byte which is not a hexadecimal digit, or whose value does not
    fit 16 bits gives 0, and a well-formed string gives its value. In
    consequence the root hub built from a controller whose vendor or
    product ID text is malformed (or denotes 0) gets the default identity:
    vendor 0x05ac, and product 0x0003 or 0x0002 according to the USB 3
    test on the controller's names. *)
Theorem parseHexID_malformed_is_zero
    (hexStr : string) (controller : spUSBController) (busNumber : Z) :
  let ok s := well_formed_id (TrimPrefix s "0x") in
  let value s := hex_value (TrimPrefix s "0x") in
  let isUSB3 := Contains (cName controller) "31"
                || Contains (cHostController controller) "XHCI" in
  let rootHub := createRootHubFromController controller busNumber in
  parseHexID hexStr = (if ok hexStr then value hexStr else 0)
  /\ 0 <= parseHexID hexStr < 2 ^ 16
  /\ VendorID rootHub =
       (if ok (cVendorID controller)
           && negb (value (cVendorID controller) =? 0)
        then value (cVendorID controller) else 0x05ac)
  /\ ProductID rootHub =
       (if ok (cProductID controller)
           && negb (value (cProductID controller) =? 0)
        then value (cProductID controller)
        else if isUSB3 then 0x0003 else 0x0002).
Proof.
  cbv zeta.
  destruct (createRootHub_ids controller busNumber) as [Hv Hp].
  cbv zeta in Hv, Hp. rewrite Hv, Hp, !parseHexID_spec.
  split; [reflexivity|]. split.
  - destruct (well_formed_id (TrimPrefix hexStr "0x")) eqn:Hw; [|lia].
    unfold well_formed_id in Hw.
    apply andb_true_iff in Hw as [Hw Hlt].
    apply andb_true_iff in Hw as [_ Hall].
    apply Z.ltb_lt in Hlt.
    pose proof (hex_value_from_ge _ 0 ltac:(lia) Hall).
    unfold hex_value in *. lia.
  - split.
    + destruct (well_formed_id (TrimPrefix (cVendorID controller) "0x"));
        cbn [andb]; [|reflexivity].
      destruct (hex_value (TrimPrefix (cVendorID controller) "0x") =? 0);
        reflexivity.
    + destruct (well_formed_id (TrimPrefix (cProductID controller) "0x"));
        cbn [andb]; [|reflexivity].
      destruct (hex_value (TrimPrefix (cProductID controller) "0x") =? 0);
        reflexivity.
Qed.

(** ** Speed and class labels *)


Lemma HasPrefix_app (s a b : string) :
  HasPrefix s (String.append a b) = true -> HasPrefix s a = true.
Proof.
  revert s. induction a as [|c a IH]; intros s; simpl; [reflexivity|].
  destruct s as [|d s]; [discriminate|].
  intros H. apply andb_true_iff in H as [-> H]. simpl. eauto.
Qed.






(** ** Heaps and edges *)

Section Heap.

Lemma with_children_nil (d : USBDevice) : with_children [] d = d.
Proof. destruct d. unfold with_children, set_Children. simpl.
  by rewrite app_nil_r. Qed.

Lemma with_children_app (cs cs' : list ptr) (d : USBDevice) :
  with_children cs' (with_children cs d) = with_children (cs ++ cs') d.
Proof. destruct d. unfold with_children, set_Children. simpl.
  by rewrite app_assoc. Qed.

Lemma skeleton_with_children (cs : list ptr) (d : USBDevice) :
  skeleton (with_children cs d) = skeleton d.
Proof. by destruct d. Qed.

Lemma lookup_AddChild (q c : ptr) (h : heap) (p : ptr) :
  AddChild q c h !! p =
    (if decide (q = p) then with_children [c] else id) <$> h !! p.
Proof.
  unfold AddChild, update. rewrite list_lookup_alter.
  destruct (decide (q = p)) as [->|]; [reflexivity|].
  by destruct (h !! p).
Qed.

Lemma length_AddChild (q c : ptr) (h : heap) :
  length (AddChild q c h) = length h.
Proof. apply length_alter. Qed.

Lemma targets_cons (e : ptr * ptr) (es : list (ptr * ptr)) (q : ptr) :
  targets (e :: es) q =
    if decide (e.1 = q) then e.2 :: targets es q else targets es q.
Proof.
  unfold targets. rewrite filter_cons.
  destruct (decide (e.1 = q)); reflexivity.
Qed.

Lemma targets_app (es es' : list (ptr * ptr)) (q : ptr) :
  targets (es ++ es') q = targets es q ++ targets es' q.
Proof. unfold targets. by rewrite filter_app, fmap_app. Qed.

Lemma lookup_add_edges (es : list (ptr * ptr)) :
  forall (h : heap) (p : ptr),
    add_edges es h !! p = with_children (targets es p) <$> h !! p.
Proof.
  induction es as [|e es IH]; intros h p.
  - simpl. destruct (h !! p) as [d|]; simpl; [|done].
    by rewrite with_children_nil.
  - unfold add_edges in *. simpl. rewrite IH, lookup_AddChild, targets_cons.
    destruct (decide (e.1 = p)); destruct (h !! p) as [d|]; simpl; try done.
    by rewrite with_children_app.
Qed.

Lemma length_add_edges (es : list (ptr * ptr)) (h : heap) :
  length (add_edges es h) = length h.
Proof.
  revert h. induction es as [|e es IH]; intros h; [done|].
  unfold add_edges in *. simpl. by rewrite IH, length_AddChild.
Qed.

Lemma children_add_edges (es : list (ptr * ptr)) (h : heap) (q : ptr) :
  (q < length h)%nat ->
  children_of (add_edges es h) q = children_of h q ++ targets es q.
Proof.
  intros Hq. unfold children_of. rewrite lookup_add_edges.
  destruct (lookup_lt_is_Some_2 h q Hq) as [d ->]. by destruct d.
Qed.


Lemma targets_Permutation (es es' : list (ptr * ptr)) (q : ptr) :
  es ≡ₚ es' -> targets es q ≡ₚ targets es' q.
Proof. intros H. unfold targets. by rewrite H. Qed.

(** The order of a [range] loop is a permutation of the entries. *)
Lemma range_Permutation {K : Type} `{Countable K} {V : Type}
    (ro : RangeOrder) (m : gmap K V) :
  range ro m ≡ₚ map_to_list m.
Proof. apply shuffle_perm. Qed.

Lemma elem_of_range {K : Type} `{Countable K} {V : Type}
    (ro : RangeOrder) (m : gmap K V) (k : K) (v : V) :
  (k, v) ∈ range ro m <-> m !! k = Some v.
Proof. rewrite range_Permutation. apply elem_of_map_to_list. Qed.

Lemma range_empty {K : Type} `{Countable K} {V : Type} (ro : RangeOrder) :
  range ro (∅ : gmap K V) = [].
Proof.
  apply Permutation_nil_r. rewrite range_Permutation.
  by rewrite map_to_list_empty.
Qed.

Lemma same_skeleton_AddChild (q c : ptr) (h h0 : heap) :
  same_skeleton h h0 -> same_skeleton (AddChild q c h) h0.
Proof.
  intros Hs p. rewrite lookup_AddChild, <- Hs.
  destruct (decide (q = p)); destruct (h !! p); simpl;
    rewrite ?skeleton_with_children; done.
Qed.

Lemma organizeStep_edge (deviceMap : gmap (Z * Z) ptr)
    (rootDevices : gmap Z ptr) (h h0 : heap) (entry : (Z * Z) * ptr) :
  same_skeleton h h0 ->
  organizeStep deviceMap rootDevices h entry =
    match organizeEdge deviceMap rootDevices h0 entry with
    | Some e => AddChild e.1 e.2 h
    | None => h
    end.
Proof.
  intros Hs. unfold organizeStep, organizeEdge. specialize (Hs entry.2).
  destruct (h !! entry.2) as [d|], (h0 !! entry.2) as [d0|]; simpl in Hs;
    try done.
  assert (Port d = Port d0 /\ Bus d = Bus d0) as [-> ->].
  { injection Hs as Hs. destruct d, d0. simpl in *. by simplify_eq. }
  destruct (Port d0 >? 0); [|done].
  destruct (deviceMap !! (Bus d0, Port d0)); [done|].
  by destruct (rootDevices !! Bus d0).
Qed.

Lemma organize_foldl (deviceMap : gmap (Z * Z) ptr)
    (rootDevices : gmap Z ptr) (h0 : heap) (l : list ((Z * Z) * ptr)) :
  forall h, same_skeleton h h0 ->
    foldl (organizeStep deviceMap rootDevices) h l =
      add_edges (omap (organizeEdge deviceMap rootDevices h0) l) h.
Proof.
  induction l as [|e l IH]; intros h Hs; [done|].
  simpl. rewrite (organizeStep_edge _ _ h h0 e Hs).
  destruct (organizeEdge deviceMap rootDevices h0 e) as [e'|]; simpl.
  - rewrite IH by by apply same_skeleton_AddChild. done.
  - by apply IH.
Qed.

Lemma organizeHierarchy_edges (ro : RangeOrder)
    (deviceMap : gmap (Z * Z) ptr) (rootDevices : gmap Z ptr) (h : heap) :
  organizeHierarchy ro deviceMap rootDevices h =
    add_edges
      (omap (organizeEdge deviceMap rootDevices h) (range ro deviceMap)) h.
Proof. unfold organizeHierarchy. by apply organize_foldl. Qed.

End Heap.

(** ** The libusb backend: organizeHierarchy *)

Section Organize.

Lemma omap_all_None {A B : Type} (f : A -> option B) (l : list A) :
  (forall x, x ∈ l -> f x = None) -> omap f l = [].
Proof.
  induction l as [|x l IH]; intros H; [done|].
  simpl. rewrite (H x) by by left. apply IH. intros y Hy. apply H. by right.
Qed.

Lemma organize_children (ro : RangeOrder) (deviceMap : gmap (Z * Z) ptr)
    (rootDevices : gmap Z ptr) (h : heap) (q : ptr) :
  (q < length h)%nat ->
  children_of (organizeHierarchy ro deviceMap rootDevices h) q ≡ₚ
    children_of h q
    ++ targets (omap (organizeEdge deviceMap rootDevices h)
                  (map_to_list deviceMap)) q.
Proof.
  intros Hq. rewrite organizeHierarchy_edges, children_add_edges by done.
  apply Permutation_app_head, targets_Permutation, omap_Permutation,
    range_Permutation.
Qed.




End Organize.

(** ** The libusb backend: enumeration *)

Section Libusb.

Lemma range_singleton {K : Type} `{Countable K} {V : Type}
    (ro : RangeOrder) (k : K) (v : V) :
  range ro (<[k := v]> (∅ : gmap K V)) = [(k, v)].
Proof.
  apply Permutation_singleton_r. rewrite range_Permutation.
  by rewrite insert_empty, map_to_list_singleton.
Qed.

Lemma getDevicesViaLibusb_empty (ro : nat -> RangeOrder) (h : heap) :
  getDevicesViaLibusb ro (Ok []) h =
    Ok (h ++ [rootHubFor 1; rootHubFor 2],
        (range (ro 2%nat)
           (<[2 := S (length h)]> (<[1 := length h]> (∅ : gmap Z ptr)))).*2).
Proof.
  unfold getDevicesViaLibusb. cbn [foldl snd].
  rewrite range_empty. cbn [foldl].
  rewrite map_size_empty. cbn [Nat.eqb foldl libusbVirtual new].
  rewrite length_app, Nat.add_1_r. cbn [length].
  rewrite organizeHierarchy_edges, omap_all_None.
  - unfold add_edges. cbn [foldl]. by rewrite <- app_assoc.
  - intros [k p] Hin. apply elem_of_range in Hin.
    unfold organizeEdge. cbn [snd].
    apply lookup_insert_Some in Hin as [[<- <-]|[_ Hin]].
    + rewrite lookup_app_r by (rewrite length_app; simpl; lia).
      rewrite length_app, Nat.add_1_r, Nat.sub_diag. reflexivity.
    + apply lookup_insert_Some in Hin as [[<- <-]|[_ Hin]]; [|done].
      rewrite <- app_assoc. cbn [app].
      rewrite list_lookup_middle by done. reflexivity.
Qed.

(** C5. When the enumeration succeeds with no device (so that no bus is
    seen), the libusb backend, and with it [GetDevices], returns without
    error exactly the two synthesized root hubs of bus 1 and bus 2, in
    some order: each at address 1 with the Linux Foundation identity
    (vendor 0x1d6b). The defaults of a synthesized hub follow the bus
    number: up to 2, "High (480 Mbps)" and product 0x0002; above,
    "Super (5 Gbps)" and product 0x0003. *)
Theorem default_root_hubs (ro : nat -> RangeOrder)
    (lsusb lsusb_t : result string) (h : heap) :
  exists roots : list ptr,
    getDevicesViaLibusb ro (Ok []) h =
      Ok (h ++ [rootHubFor 1; rootHubFor 2], roots)
    /\ GetDevices ro (Ok []) lsusb lsusb_t h =
         Ok (h ++ [rootHubFor 1; rootHubFor 2], roots)
    /\ roots ≡ₚ [length h; S (length h)]
    /\ rootHubFor 1 =
         mkUSBDevice 0x1d6b 0x0002 "Linux Foundation" "USB 2.0 Root Hub"
           1 0 1 "" "High (480 Mbps)" "Hub" "00" "00" "" []
    /\ rootHubFor 2 =
         mkUSBDevice 0x1d6b 0x0002 "Linux Foundation" "USB 2.0 Root Hub"
           2 0 1 "" "High (480 Mbps)" "Hub" "00" "00" "" []
    /\ forall busNum : Z,
         VendorID (rootHubFor busNum) = 0x1d6b
         /\ VendorName (rootHubFor busNum) = "Linux Foundation"%string
         /\ Address (rootHubFor busNum) = 1
         /\ Bus (rootHubFor busNum) = busNum
         /\ (Speed (rootHubFor busNum), ProductID (rootHubFor busNum)) =
              if busNum <=? 2 then ("High (480 Mbps)"%string, 0x0002)
              else ("Super (5 Gbps)"%string, 0x0003).
Proof.
  eexists. split; [apply getDevicesViaLibusb_empty|].
  split; [unfold GetDevices; by rewrite getDevicesViaLibusb_empty|].
  split.
  { rewrite range_Permutation.
    rewrite map_to_list_insert
      by (rewrite lookup_insert_ne by lia; apply lookup_empty).
    rewrite insert_empty, map_to_list_singleton. simpl. apply perm_swap. }
  split; [reflexivity|]. split; [reflexivity|].
  intros busNum. repeat split; try reflexivity.
  unfold rootHubFor, getDefaultSpeedForBus, getProductIDForUSBVersion. simpl.
  by destruct (busNum <=? 2).
Qed.

(** C1 fails on the code. A device whose port number equals its own
    address (here bus 1, address 2, port 2) is looked up as its own
    parent: after [getDevicesViaLibusb], whatever the order of the loops,
    the device (at index 0 of the heap) is the one child of itself, and
    the root hub of its bus (index 1), the only root returned, has no
    child, so the device is also missing from the returned forest. *)
Theorem same_port_device_is_own_child (ro : nat -> RangeOrder) :
  exists h' : heap,
    getDevicesViaLibusb ro (Ok [samePortDevice]) [] = Ok (h', [1%nat])
    /\ h' !! 0%nat ≫= (fun d => Some (ident d, Port d)) = Some ((1, 2), 2)
    /\ children_of h' 0 = [0%nat]
    /\ children_of h' 1 = [].
Proof.
  unfold getDevicesViaLibusb. cbn [foldl libusbTrack new snd length app].
  change (dBus samePortDevice) with 1.
  change (dAddress samePortDevice) with 2.
  rewrite !range_singleton. cbn [foldl libusbRoot fst].
  rewrite lookup_empty. cbn [new length app].
  rewrite (insert_empty (M:=gmap Z) 1 true), map_size_singleton.
  cbn [Nat.eqb]. rewrite range_singleton. cbn [fmap list_fmap snd].
  eexists. split; [reflexivity|].
  split.
  { rewrite organizeHierarchy_edges, lookup_add_edges. reflexivity. }
  split.
  - apply Permutation_singleton_r.
    rewrite organize_children by (simpl; lia). reflexivity.
  - apply Permutation_nil_r.
    rewrite organize_children by (simpl; lia). reflexivity.
Qed.

End Libusb.

(** ** The lsusb backend: mergeHierarchy *)

Section Merge.

Variable nodeHeap : list treeNode.
Variable hierarchy : gmap (Z * Z) nptr.











Lemma length_applyHints (devices : list ptr) (h : heap) :
  length (applyHints nodeHeap hierarchy devices h) = length h.
Proof.
  revert h. induction devices as [|p devices IH]; intros h; [done|].
  unfold applyHints in *. cbn [foldl]. by rewrite IH, length_alter.
Qed.










End Merge.

(** ** Running the merge on records already merged *)

Section Rerun.

Variable nodeHeap : list treeNode.
Variable hierarchy : gmap (Z * Z) nptr.










End Rerun.




(** ** Scenarios of the lsusb backend *)


(** Without the marker that starts a root line the two lines of Scenario D
    give no node at all: the first is not taken for a root, and no child
    is accepted before a root was seen. *)
Lemma parse_scenarioD_bare :
  parseLsusbTree (Ok scenarioD_bare) = Ok ([], ∅).
Proof. vm_compute. reflexivity. Qed.






(** ** The flat-list adapter *)

Section FlatList.

Lemma parseLsusbLine_skip (st : heap * gmap (Z * Z) ptr) (line : string) :
  line_matches line = false -> parseLsusbLine st line = st.
Proof.
  unfold line_matches, parseLsusbLine. intros H.
  destruct (String.eqb line ""); [done|]. cbn [negb andb] in H.
  destruct (Nat.leb_spec 6 (length (lsusbRe line))); [done|].
  destruct (Nat.ltb_spec (length (lsusbRe line)) 6); [done|lia].
Qed.

Lemma parseLsusbLine_match (h : heap) (dm : gmap (Z * Z) ptr)
    (line : string) :
  line_matches line = true ->
  parseLsusbLine (h, dm) line =
    (h ++ [lineRecord line], <[ident (lineRecord line) := length h]> dm).
Proof.
  unfold line_matches, parseLsusbLine. intros H.
  destruct (String.eqb line ""); [done|]. cbn [negb andb] in H.
  apply Nat.leb_le in H.
  destruct (Nat.ltb_spec (length (lsusbRe line)) 6); [lia|]. done.
Qed.

Lemma parseLsusb_filter (lines : list string) :
  forall st : heap * gmap (Z * Z) ptr,
    foldl parseLsusbLine st lines =
      foldl parseLsusbLine st
        (filter (fun line => line_matches line = true) lines).
Proof.
  induction lines as [|line lines IH]; intros st; [done|].
  rewrite filter_cons. destruct (decide (line_matches line = true)) as [H|H].
  - cbn [foldl]. apply IH.
  - cbn [foldl]. rewrite parseLsusbLine_skip by by destruct (line_matches line).
    apply IH.
Qed.

(** The state after the loop: the heap has grown by the records of the
    matching lines, in order, and [deviceMap] holds, for each bus and
    address, the last of these records (or what it held before). *)
Lemma parseLsusb_foldl (lines : list string) :
  forall (h : heap) (dm : gmap (Z * Z) ptr),
    Forall (fun line => line_matches line = true) lines ->
    exists dm' : gmap (Z * Z) ptr,
      foldl parseLsusbLine (h, dm) lines = (h ++ (lineRecord <$> lines), dm')
      /\ forall (k : Z * Z) (p : ptr),
           dm' !! k = Some p <->
           (exists i r, p = (length h + i)%nat
              /\ is_last_of (lineRecord <$> lines) i r /\ ident r = k)
           \/ (dm !! k = Some p
               /\ forall r, r ∈ lineRecord <$> lines -> ident r <> k).
Proof.
  induction lines as [|line lines IH]; intros h dm Hall.
  - exists dm. split; [by rewrite app_nil_r|].
    intros k p. split.
    + intros H. right. split; [done|]. intros r Hr. by apply elem_of_nil in Hr.
    + intros [(i & r & _ & [Hi _] & _)|[H _]]; [done|done].
  - apply Forall_cons in Hall as [Hm Hall].
    cbn [foldl]. rewrite parseLsusbLine_match by done.
    destruct (IH (h ++ [lineRecord line])
                (<[ident (lineRecord line) := length h]> dm) Hall)
      as (dm' & Heq & Hdm).
    exists dm'. split.
    { rewrite Heq. by rewrite <- app_assoc. }
    intros k p. rewrite Hdm. rewrite length_app. cbn [length].
    cbn [fmap list_fmap]. split.
    + intros [(i & r & -> & [Hi Hlast] & Hk)|[Hins Hno]].
      * left. exists (S i), r. split; [lia|]. split; [|done]. split; [done|].
        intros [|j] r' Hj Hr'; [lia|]. apply (Hlast j r'); [lia|done].
      * apply lookup_insert_Some in Hins as [[<- <-]|[Hne Hold]].
        -- left. exists 0%nat, (lineRecord line). split; [lia|].
           split; [|done]. split; [done|].
           intros [|j] r' Hj Hr'; [lia|]. apply Hno.
           apply (list_elem_of_lookup_2 _ j). exact Hr'.
        -- right. split; [done|].
           intros r [->|Hr]%elem_of_cons; [done|by apply Hno].
    + intros [(i & r & -> & [Hi Hlast] & Hk)|[Hold Hno]].
      * destruct i as [|i].
        -- injection Hi as <-. right. split.
           ++ rewrite Nat.add_0_r, <- Hk. apply lookup_insert_eq.
           ++ intros r Hr. apply list_elem_of_lookup_1 in Hr as [j Hj].
              rewrite <- Hk. apply (Hlast (S j) r); [lia|done].
        -- left. exists i, r. split; [lia|]. split; [|done]. split; [done|].
           intros j r' Hj Hr'. apply (Hlast (S j) r'); [lia|done].
      * right. split.
        -- rewrite lookup_insert_ne; [done|].
           apply Hno. by left.
        -- intros r Hr. apply Hno. by right.
Qed.

Lemma Forall_matchingLines (output : string) :
  Forall (fun line => line_matches line = true) (matchingLines output).
Proof.
  unfold matchingLines. apply Forall_forall. intros line Hin.
  by apply list_elem_of_filter in Hin as [? _].
Qed.

Lemma NoDup_range_snd {K : Type} `{Countable K} (ro : RangeOrder)
    (m : gmap K ptr) :
  (forall k k' p, m !! k = Some p -> m !! k' = Some p -> k = k') ->
  NoDup (range ro m).*2.
Proof.
  intros Hinj. rewrite range_Permutation.
  apply NoDup_fmap_2_strong; [|apply NoDup_map_to_list].
  intros [k p] [k' p'] Hin Hin' Heq. simpl in Heq. subst p'.
  apply elem_of_map_to_list in Hin, Hin'. by rewrite (Hinj k k' p).
Qed.

(** The if-chain of the adapter is a search of the table of vendor names,
    in order, with the first word as the fallback. *)
Lemma splitDescription_table (description : string) :
  splitDescription description = splitBy vendorPrefixes description.
Proof.
  unfold splitDescription, splitBy.
  destruct (String.eqb description ""); [reflexivity|].
  cbn [negb vendorPrefixes find].
  repeat match goal with
         | |- context [HasPrefix description ?v] =>
             destruct (HasPrefix description v); [reflexivity|]
         end.
  unfold SplitN2. by destruct (cutSpace description) as [[a b]|].
Qed.

(** C4, as the code has it. The table of vendor names is tried first and
    the first word is the vendor only when no name of the table fits; the
    table does not hold the name Apple Inc., so the line of Scenario B
    gives one record with vendor name Apple, product name
    Inc. Internal Keyboard and class HID. *)
Theorem apple_line_record (ro : RangeOrder) (h : heap) :
  (forall description : string,
     splitDescription description = splitBy vendorPrefixes description)
  /\ List.find (HasPrefix "Apple Inc. Internal Keyboard") vendorPrefixes = None
  /\ exists d : USBDevice,
       parseLsusbOutput ro (Ok appleLine) h = Ok (h ++ [d], [length h])
       /\ VendorID d = 0x05ac /\ ProductID d = 0x027e
       /\ VendorName d = "Apple"%string
       /\ ProductName d = "Inc. Internal Keyboard"%string
       /\ Class d = "HID"%string
       /\ Bus d = 1 /\ Address d = 2 /\ Port d = 0
       /\ Speed d = "Unknown"%string.
Proof.
  split; [exact splitDescription_table|]. split; [reflexivity|].
  exists (lineRecord appleLine). split; [|by vm_compute].
  unfold parseLsusbOutput.
  replace (SplitLines appleLine) with [appleLine] by reflexivity.
  cbn [foldl]. rewrite parseLsusbLine_match by reflexivity.
  by rewrite range_singleton.
Qed.

(** C4 as stated fails: the record of the line of Scenario B does not
    carry the vendor name Apple Inc. and the product name
    Internal Keyboard. *)
Lemma apple_line_not_apple_inc :
  exists (h' : heap) (d : USBDevice),
    parseLsusbOutput sliceOrder (Ok appleLine) [] = Ok (h', [0%nat])
    /\ h' !! 0%nat = Some d
    /\ VendorName d <> "Apple Inc."%string
    /\ ProductName d <> "Internal Keyboard"%string.
Proof.
  eexists _, _. split; [vm_compute; reflexivity|]. split; [reflexivity|].
  split; discriminate.
Qed.


(** C9, as the code has it. For every output of the command,
    [parseLsusbOutput] returns without error. It allocates a record for
    exactly the non-empty lines that match the pattern and returns, in
    some order and each once, the records that are the last of their bus
    and address among them, so one record for each matching line when no
    two matching lines share bus and address. The lines that do not match
    change nothing: two outputs with the same matching lines give the
    same result. *)
Theorem parseLsusbOutput_skips (ro : RangeOrder) (output : string)
    (h : heap) :
  exists devices : list ptr,
    parseLsusbOutput ro (Ok output) h =
      Ok (h ++ matchingRecords output, devices)
    /\ (forall p : ptr,
          p ∈ devices <->
          exists i r, p = (length h + i)%nat
            /\ is_last_of (matchingRecords output) i r)
    /\ NoDup devices
    /\ (NoDup (ident <$> matchingRecords output) ->
        devices ≡ₚ seq (length h) (length (matchingRecords output)))
    /\ (forall output' : string,
          matchingLines output' = matchingLines output ->
          parseLsusbOutput ro (Ok output') h =
            parseLsusbOutput ro (Ok output) h).
Proof.
  unfold parseLsusbOutput.
  rewrite (parseLsusb_filter (SplitLines output)).
  fold (matchingLines output).
  destruct (parseLsusb_foldl (matchingLines output) h ∅
              (Forall_matchingLines output)) as (dm' & Heq & Hdm).
  rewrite Heq. fold (matchingRecords output) in *.
  assert (Hlook : forall k p, dm' !! k = Some p <->
            exists i r, p = (length h + i)%nat
              /\ is_last_of (matchingRecords output) i r /\ ident r = k).
  { intros k p. rewrite Hdm. split.
    - intros [?|[? _]]; [done|by rewrite lookup_empty in *].
    - intros ?. by left. }
  assert (Hin : forall p, p ∈ (range ro dm').*2 <->
            exists i r, p = (length h + i)%nat
              /\ is_last_of (matchingRecords output) i r).
  { intros p. rewrite list_elem_of_fmap. split.
    - intros ([k p'] & -> & Hkp). apply elem_of_range in Hkp.
      apply Hlook in Hkp as (i & r & ? & ? & _). eauto.
    - intros (i & r & -> & Hl). exists (ident r, (length h + i)%nat).
      split; [done|]. apply elem_of_range, Hlook. eauto. }
  assert (Hnd : NoDup (range ro dm').*2).
  { apply NoDup_range_snd. intros k k' p Hk Hk'.
    apply Hlook in Hk as (i & r & -> & [Hi _] & <-).
    apply Hlook in Hk' as (i' & r' & Hp & [Hi' _] & <-).
    assert (i = i') as <- by lia. congruence. }
  eexists. split; [reflexivity|]. split; [exact Hin|]. split; [exact Hnd|].
  split.
  - intros Hids. apply NoDup_Permutation; [done|apply NoDup_seq|].
    intros p. rewrite Hin, elem_of_seq. split.
    + intros (i & r & -> & [Hi _]). apply lookup_lt_Some in Hi. lia.
    + intros [Hlo Hhi]. exists (p - length h)%nat.
      destruct (lookup_lt_is_Some_2 (matchingRecords output)
                  (p - length h)%nat ltac:(lia)) as [r Hr].
      exists r. split; [lia|]. split; [done|].
      intros j r' Hj Hr' He.
      assert (Hi : (ident <$> matchingRecords output) !! (p - length h)%nat
                   = Some (ident r)) by by rewrite list_lookup_fmap, Hr.
      assert (Hj' : (ident <$> matchingRecords output) !! j = Some (ident r))
        by (rewrite list_lookup_fmap, Hr'; simpl; by rewrite He).
      pose proof (NoDup_lookup _ _ _ _ Hids Hi Hj'). lia.
  - intros output' Hsame.
    rewrite (parseLsusb_filter (SplitLines output')).
    fold (matchingLines output'). by rewrite Hsame, Heq.
Qed.

(** C9 as stated fails: two matching lines for the same bus and address
    give one record, that of the second line. *)
Lemma same_address_lines_one_record :
  length (matchingLines sameAddressLines) = 2%nat
  /\ exists h' : heap,
       parseLsusbOutput sliceOrder (Ok sameAddressLines) [] = Ok (h', [1%nat])
       /\ VendorID <$> h' !! 1%nat = Some 0x046d.
Proof. split; [reflexivity|]. eexists. split; vm_compute; reflexivity. Qed.

End FlatList.

(** * Further properties *)

Import Profiler Tree Forest Formats.

(** ** The darwin detector: the forest of system_profiler *)

Section ProfilerForest.

(** Induction on a tree of items. *)
Lemma item_ind' (P : spUSBDevice -> Prop) :
  (forall item : spUSBDevice, Forall P (iItems item) -> P item) ->
  forall item : spUSBDevice, P item.
Proof.
  intros H. fix IH 1. intros item. apply H.
  destruct item as [? ? ? ? ? ? ? ? items]. cbn [iItems].
  induction items as [|it items IHl]; constructor; [apply IH|apply IHl].
Qed.

Lemma itemCount_eq (item : spUSBDevice) :
  itemCount item = S (itemsCount (iItems item)).
Proof.
  destruct item as [? ? ? ? ? ? ? ? items]. cbn [itemCount iItems]. f_equal.
  unfold itemsCount. induction items as [|it items IH]; [done|].
  cbn [fmap list_fmap sum_list_with]. by rewrite IH.
Qed.

Lemma processItem_eq (item : spUSBDevice) (parent : ptr) (h : heap) :
  processItem item parent h =
    match h !! parent with
    | None => h
    | Some par =>
        processSystemProfilerItems (iItems item) (length h)
          (AddChild parent (length h)
             (h ++ [createDeviceFromSystemProfiler item (Bus par)]))
    end.
Proof.
  destruct item as [? ? ? ? ? ? ? ? items]. cbn [processItem iItems].
  destruct (h !! parent) as [par|]; [|done]. cbn [new].
  unfold processSystemProfilerItems.
  match goal with
  | |- context [AddChild ?a ?b ?c] => generalize (AddChild a b c)
  end.
  generalize (length h).
  induction items as [|it items IH]; intros b h1; [done|].
  cbn [foldl]. apply IH.
Qed.


Lemma AddChild_alter (q c : ptr) (h : heap) :
  AddChild q c h = alter (with_children [c]) q h.
Proof. reflexivity. Qed.

Lemma Children_createDevice (item : spUSBDevice) (bus : Z) :
  Children (createDeviceFromSystemProfiler item bus) = [].
Proof.
  unfold createDeviceFromSystemProfiler.
  by destruct (negb (String.eqb (iCurrentRequired item) "")).
Qed.

Lemma skeleton_fresh (d : USBDevice) : Children d = [] -> skeleton d = d.
Proof. destruct d. simpl. by intros ->. Qed.

Lemma Children_with_children (cs : list ptr) (d : USBDevice) :
  Children (with_children cs d) = Children d ++ cs.
Proof. by destruct d. Qed.

Lemma itemAt_app (h E : heap) (bus : Z) (item : spUSBDevice) :
  forall p : ptr, itemAt h bus p item -> itemAt (h ++ E) bus p item.
Proof.
  induction item as [item IH] using item_ind'. intros p Hp.
  inversion Hp as [p' item' d Hd Hs Hc]; subst.
  apply (itemAt_intro _ _ _ _ d); [by apply lookup_app_l_Some|done|].
  revert IH. induction Hc as [|c it cs its Hc Hcs IHc]; intros IH;
    [constructor|].
  apply Forall_cons in IH as [IH1 IH2].
  constructor; [by apply IH1|by apply IHc].
Qed.

Lemma itemsCount_cons (item : spUSBDevice) (items : list spUSBDevice) :
  itemsCount (item :: items) = (itemCount item + itemsCount items)%nat.
Proof. reflexivity. Qed.

Lemma block_nil (bus : Z) (base : nat) : block bus base [] [] [].
Proof.
  split; [done|]. split; [by constructor|]. split; [done|].
  intros i d c Hi. by rewrite lookup_nil in Hi.
Qed.

(** The block of an item followed by the block of further items. *)
Lemma block_cons (bus : Z) (base : nat) (item : spUSBDevice)
    (items : list spUSBDevice) (ptrs : list ptr) (B1 B2 : list USBDevice) :
  block bus base [base] [item] B1 ->
  block bus (base + length B1) ptrs items B2 ->
  block bus base (base :: ptrs) (item :: items) (B1 ++ B2).
Proof.
  intros (Hl1 & Ht1 & Hp1 & Hc1) (Hl2 & Ht2 & Hp2 & Hc2).
  split; [|split; [|split]].
  - rewrite length_app, Hl1, Hl2, !itemsCount_cons. unfold itemsCount.
    simpl. lia.
  - intros X HX. constructor.
    + specialize (Ht1 X HX). apply Forall2_cons_1 in Ht1 as [Ht1 _].
      rewrite app_assoc. by apply itemAt_app.
    + rewrite app_assoc. apply Ht2. rewrite length_app. lia.
  - rewrite fmap_app, concat_app, length_app, seq_app.
    rewrite <- Hp1, <- Hp2. simpl.
    rewrite !app_assoc. cbn [app]. constructor.
    apply Permutation_app_tail, Permutation_app_comm.
  - intros i d c Hi Hc.
    apply lookup_app_Some in Hi as [Hi|[Hge Hi]].
    + by apply (Hc1 i d c).
    + pose proof (Hc2 _ d c Hi Hc). lia.
Qed.

(** The block of an item: its record, then the block of the items below
    it. *)
Lemma block_item (bus : Z) (base : nat) (item : spUSBDevice)
    (ptrs : list ptr) (B : list USBDevice) :
  block bus (S base) ptrs (iItems item) B ->
  block bus base [base] [item]
    (with_children ptrs (createDeviceFromSystemProfiler item bus) :: B).
Proof.
  intros (Hl & Ht & Hp & Hc).
  split; [|split; [|split]].
  - rewrite itemsCount_cons, itemCount_eq. unfold itemsCount at 2.
    cbn [length fmap list_fmap sum_list_with]. lia.
  - intros X HX. constructor; [|constructor].
    apply (itemAt_intro _ _ _ _
             (with_children ptrs (createDeviceFromSystemProfiler item bus))).
    + rewrite lookup_app_r by lia. by rewrite HX, Nat.sub_diag.
    + rewrite skeleton_with_children.
      apply skeleton_fresh, Children_createDevice.
    + rewrite Children_with_children, Children_createDevice. cbn [app].
      rewrite (cons_middle _ X B), app_assoc. apply Ht.
      rewrite length_app. simpl. lia.
  - cbn [fmap list_fmap concat length seq app].
    rewrite Children_with_children, Children_createDevice. cbn [app].
    constructor. exact Hp.
  - intros [|i] d c Hi Hin.
    + injection Hi as <-.
      rewrite Children_with_children, Children_createDevice in Hin.
      cbn [app] in Hin.
      assert (Hc' : c ∈ seq (S base) (length B)).
      { rewrite <- Hp. apply elem_of_app. by left. }
      apply elem_of_seq in Hc'. lia.
    + cbn in Hi. pose proof (Hc i d c Hi Hin). lia.
Qed.

Lemma processItems_block (items : list spUSBDevice) :
  Forall (fun item =>
    forall (parent : ptr) (h : heap) (par : USBDevice),
      h !! parent = Some par ->
      exists B : list USBDevice,
        processItem item parent h =
          alter (with_children [length h]) parent h ++ B
        /\ block (Bus par) (length h) [length h] [item] B) items ->
  forall (parent : ptr) (h : heap) (par : USBDevice),
    h !! parent = Some par ->
    exists (ptrs : list ptr) (B : list USBDevice),
      processSystemProfilerItems items parent h =
        alter (with_children ptrs) parent h ++ B
      /\ block (Bus par) (length h) ptrs items B.
Proof.
  induction items as [|item items IH]; intros HP parent h par Hpar.
  - exists [], []. split; [|apply block_nil].
    cbn. rewrite app_nil_r. symmetry. apply list_alter_id.
    intros d. apply with_children_nil.
  - apply Forall_cons in HP as [H1 H2].
    destruct (H1 parent h par Hpar) as (B1 & E1 & Hb1).
    unfold processSystemProfilerItems. cbn [foldl]. rewrite E1.
    fold (processSystemProfilerItems items parent
            (alter (with_children [length h]) parent h ++ B1)).
    assert (Hlt : (parent < length h)%nat) by by eapply lookup_lt_Some.
    assert (Hpar1 : (alter (with_children [length h]) parent h ++ B1)
                      !! parent
                    = Some (with_children [length h] par)).
    { apply lookup_app_l_Some. by rewrite list_lookup_alter_eq, Hpar. }
    destruct (IH H2 parent _ _ Hpar1) as (ptrs & B2 & E2 & Hb2).
    exists (length h :: ptrs), (B1 ++ B2). split.
    + rewrite E2. rewrite alter_app_l by (rewrite length_alter; lia).
      rewrite list_alter_alter_eq, <- app_assoc. f_equal.
      apply list_alter_ext; [|done]. intros d _. unfold compose.
      by rewrite with_children_app.
    + apply block_cons; [done|].
      rewrite length_app, length_alter in Hb2.
      by destruct par.
Qed.

Lemma processItem_block (item : spUSBDevice) :
  forall (parent : ptr) (h : heap) (par : USBDevice),
    h !! parent = Some par ->
    exists B : list USBDevice,
      processItem item parent h =
        alter (with_children [length h]) parent h ++ B
      /\ block (Bus par) (length h) [length h] [item] B.
Proof.
  induction item as [item IH] using item_ind'. intros parent h par Hpar.
  rewrite processItem_eq, Hpar, AddChild_alter.
  assert (Hlt : (parent < length h)%nat) by by eapply lookup_lt_Some.
  rewrite alter_app_l by done.
  set (dev := createDeviceFromSystemProfiler item (Bus par)).
  set (h1 := alter (with_children [length h]) parent h).
  assert (Hlen1 : length h1 = length h) by apply length_alter.
  assert (Hdev : (h1 ++ [dev]) !! length h = Some dev).
  { rewrite lookup_app_r by lia. by rewrite Hlen1, Nat.sub_diag. }
  destruct (processItems_block (iItems item) IH (length h) (h1 ++ [dev]) dev
              Hdev) as (ptrs & B & E & Hb).
  exists (with_children ptrs dev :: B). split.
  - rewrite E, (alter_app_r_alt _ h1 [dev] (length h)) by lia.
    rewrite Hlen1, Nat.sub_diag. cbn. by rewrite <- app_assoc.
  - apply block_item.
    replace (length (h1 ++ [dev])) with (S (length h)) in Hb
      by (rewrite length_app, Hlen1; simpl; lia).
    replace (Bus dev) with (Bus par) in Hb; [done|].
    unfold dev, createDeviceFromSystemProfiler.
    by destruct (negb (String.eqb (iCurrentRequired item) "")).
Qed.

(** What [processSystemProfilerItems] does to the heap: the parent gets
    the pointers to the devices of the items, and the records of the
    trees of the items are appended. *)
Lemma processSystemProfilerItems_block (items : list spUSBDevice)
    (parent : ptr) (h : heap) (par : USBDevice) :
  h !! parent = Some par ->
  exists (ptrs : list ptr) (B : list USBDevice),
    processSystemProfilerItems items parent h =
      alter (with_children ptrs) parent h ++ B
    /\ block (Bus par) (length h) ptrs items B.
Proof.
  apply processItems_block. apply Forall_forall. intros item _.
  apply processItem_block.
Qed.

Lemma Forall2_itemAt_app (h E : heap) (bus : Z) (ptrs : list ptr)
    (items : list spUSBDevice) :
  Forall2 (itemAt h bus) ptrs items ->
  Forall2 (itemAt (h ++ E) bus) ptrs items.
Proof.
  intros H. eapply Forall2_impl; [exact H|]. intros p item.
  apply itemAt_app.
Qed.

Lemma Children_createRootHub (c : spUSBController) (bus : Z) :
  Children (createRootHubFromController c bus) = []
  /\ Bus (createRootHubFromController c bus) = bus.
Proof.
  unfold createRootHubFromController. cbv zeta.
  repeat match goal with
         | |- context [if ?b then _ else _] => destruct b
         end; split; reflexivity.
Qed.

(** What one turn of the loop over the controllers does. *)
Lemma profilerStep_block (h : heap) (res : list ptr) (b : Z)
    (c : spUSBController) (items : list spUSBDevice) :
  exists (ptrs : list ptr) (B : list USBDevice),
    profilerStep (h, res, b) (c, items) =
      (h ++ with_children ptrs (createRootHubFromController c b) :: B,
       res ++ [length h], b + 1)
    /\ block b (S (length h)) ptrs items B.
Proof.
  unfold profilerStep. cbn [new fst snd].
  set (root := createRootHubFromController c b).
  destruct (Children_createRootHub c b) as [Hc Hb]. fold root in Hc, Hb.
  assert (Hroot : (h ++ [root]) !! length h = Some root).
  { rewrite lookup_app_r by lia. by rewrite Nat.sub_diag. }
  destruct (processSystemProfilerItems_block items (length h) (h ++ [root])
              root Hroot) as (ptrs & B & E & Hblock).
  exists ptrs, B. split.
  - rewrite E. replace (length h) with (length h + 0)%nat at 1 by lia.
    rewrite alter_app_r. cbn. by rewrite <- app_assoc.
  - rewrite Hb, length_app in Hblock. cbn [length] in Hblock.
    by rewrite Nat.add_1_r in Hblock.
Qed.

(** The loop over the controllers: the records it appends to the heap and
    the roots it appends to the result. *)
Lemma profiler_fold (data : spData) :
  forall (h : heap) (res : list ptr) (b : Z),
    exists (N : list USBDevice) (roots : list ptr),
      foldl profilerStep (h, res, b) data =
        (h ++ N, res ++ roots, b + Z.of_nat (length data))
      /\ length roots = length data
      /\ length N = sum_list ((fun c => S (itemsCount c.2)) <$> data)
      /\ (forall (i : nat) (c : spUSBController) (items : list spUSBDevice),
            data !! i = Some (c, items) ->
            exists (r : ptr) (d : USBDevice),
              roots !! i = Some r /\ (h ++ N) !! r = Some d
              /\ skeleton d = createRootHubFromController c (b + Z.of_nat i)
              /\ Forall2 (itemAt (h ++ N) (b + Z.of_nat i)) (Children d)
                   items)
      /\ roots ++ concat (Children <$> N) ≡ₚ seq (length h) (length N)
      /\ (forall (i : nat) (d : USBDevice) (c : ptr),
            N !! i = Some d -> c ∈ Children d -> (length h + i < c)%nat).
Proof.
  induction data as [|[c items] data IH]; intros h res b.
  - exists [], []. cbn. rewrite !app_nil_r, Z.add_0_r.
    split; [done|]. split; [done|]. split; [done|].
    split; [|split; [done|]].
    + intros i c items Hi. by destruct i.
    + intros i d c Hi. by destruct i.
  - cbn [foldl].
    destruct (profilerStep_block h res b c items)
      as (ptrs & B & E & Hl & Ht & Hp & Hc).
    rewrite E.
    set (root := with_children ptrs (createRootHubFromController c b)).
    destruct (IH (h ++ root :: B) (res ++ [length h]) (b + 1))
      as (N & roots & E2 & Hlen & HlenN & Hroots & Hperm & Hlt).
    exists (root :: B ++ N), (length h :: roots).
    assert (Happ : (h ++ root :: B) ++ N = h ++ root :: B ++ N)
      by by rewrite <- app_assoc.
    rewrite Happ in *.
    split; [|split; [|split; [|split; [|split]]]].
    + rewrite E2. f_equal; [f_equal|cbn [length]; lia].
      by rewrite <- app_assoc.
    + cbn. by rewrite Hlen.
    + cbn [length fmap list_fmap sum_list_with snd].
      rewrite length_app, Hl, HlenN. reflexivity.
    + intros [|i] c' items' Hi.
      * injection Hi as <- <-. exists (length h), root.
        destruct (Children_createRootHub c b) as [Hcr _].
        split; [done|]. split.
        { rewrite lookup_app_r by lia. by rewrite Nat.sub_diag. }
        split.
        { unfold root. rewrite skeleton_with_children, Z.add_0_r.
          by apply skeleton_fresh. }
        unfold root at 2. rewrite Children_with_children, Hcr. cbn [app].
        rewrite Z.add_0_r.
        replace (h ++ root :: B ++ N) with ((h ++ [root]) ++ B ++ N)
          by by rewrite <- app_assoc.
        rewrite app_assoc. apply Forall2_itemAt_app, Ht.
        rewrite length_app. simpl. lia.
      * cbn in Hi. destruct (Hroots i c' items' Hi)
          as (r & d & Hr & Hd & Hs & Hf).
        exists r, d. split; [done|]. split; [done|].
        replace (b + Z.of_nat (S i)) with (b + 1 + Z.of_nat i) by lia.
        done.
    + cbn [fmap list_fmap concat length app].
      rewrite fmap_app, concat_app, length_app. cbn [seq].
      rewrite seq_app.
      unfold root at 1. rewrite Children_with_children.
      destruct (Children_createRootHub c b) as [-> _]. cbn [app].
      constructor.
      rewrite length_app in Hperm. cbn [length] in Hperm.
      replace (length h + S (length B))%nat
        with (S (length h) + length B)%nat in Hperm by lia.
      rewrite <- Hp, <- Hperm. solve_Permutation.
    + intros [|i] d c' Hi Hin.
      * injection Hi as <-. unfold root in Hin.
        rewrite Children_with_children in Hin.
        destruct (Children_createRootHub c b) as [Hcr _].
        rewrite Hcr in Hin. cbn [app] in Hin.
        assert (Hc' : c' ∈ seq (S (length h)) (length B)).
        { rewrite <- Hp. apply elem_of_app. by left. }
        apply elem_of_seq in Hc'. lia.
      * cbn in Hi. apply lookup_app_Some in Hi as [Hi|[Hge Hi]].
        -- pose proof (Hc i d c' Hi Hin). lia.
        -- pose proof (Hlt _ d c' Hi Hin) as Hlt'.
           rewrite length_app in Hlt'. cbn [length] in Hlt'. lia.
Qed.

Lemma elem_of_concat {A : Type} (L : list (list A)) (x : A) :
  x ∈ concat L <-> exists l : list A, l ∈ L /\ x ∈ l.
Proof.
  rewrite list_elem_of_In, in_concat. split; intros (l & H1 & H2); exists l.
  - by rewrite !list_elem_of_In.
  - by rewrite <- !list_elem_of_In.
Qed.

Lemma NoDup_concat_elem {A : Type} (L : list (list A)) (l : list A) :
  NoDup (concat L) -> l ∈ L -> NoDup l.
Proof.
  induction L as [|l' L IH]; intros Hnd Hin; [by apply elem_of_nil in Hin|].
  cbn in Hnd. apply NoDup_app in Hnd as (H1 & _ & H2).
  apply elem_of_cons in Hin as [->|Hin]; [done|by apply IH].
Qed.

Lemma NoDup_concat_same {A : Type} (L : list (list A)) :
  forall (i j : nat) (l1 l2 : list A) (x : A),
    NoDup (concat L) ->
    L !! i = Some l1 -> L !! j = Some l2 -> x ∈ l1 -> x ∈ l2 -> i = j.
Proof.
  induction L as [|l L IH]; intros i j l1 l2 x Hnd Hi Hj H1 H2;
    [by destruct i|].
  cbn in Hnd. apply NoDup_app in Hnd as (_ & Hdis & Hnd).
  assert (Hcat : forall k l', L !! k = Some l' -> x ∈ l' -> x ∈ concat L).
  { intros k l' Hk Hx. apply elem_of_concat. exists l'.
    split; [by eapply list_elem_of_lookup_2|done]. }
  destruct i as [|i], j as [|j]; cbn in Hi, Hj; simplify_eq.
  - done.
  - destruct (Hdis x H1). by eapply Hcat.
  - destruct (Hdis x H2). by eapply Hcat.
  - f_equal. by eapply IH.
Qed.

Lemma children_of_new (h N : heap) (q : ptr) :
  (length h <= q)%nat ->
  children_of (h ++ N) q =
    match N !! (q - length h)%nat with
    | Some d => Children d
    | None => []
    end.
Proof. intros Hq. unfold children_of. by rewrite lookup_app_r. Qed.

Lemma below_increasing (h : heap) (base : nat) :
  (forall q p : ptr,
     (base <= q)%nat -> p ∈ children_of h q -> (q < p)%nat) ->
  forall q p : ptr, (base <= q)%nat -> below h q p -> (q < p)%nat.
Proof.
  intros Hlt q p Hq Hb. induction Hb as [q p Hin|q c p Hin Hb IH].
  - by apply Hlt.
  - pose proof (Hlt q c Hq Hin). specialize (IH ltac:(lia)). lia.
Qed.

(** X1. When the output of system_profiler is decoded, the darwin
    detector returns without error, leaves the records that were there
    untouched, and allocates one record for each controller and each
    item. It returns one root for each controller, in the order of the
    controllers: the root hub of the controller, numbered as bus 1, 2,
    and so on, whose children are, in order, the devices of the
    controller's items on that bus, each with the devices of the items
    below it as its children. *)
Theorem profiler_forest_mirrors_items (output : string)
    (unmarshal : string -> result spData) (data : spData) (h : heap) :
  unmarshal output = Ok data ->
  exists (h' : heap) (roots : list ptr),
    Profiler.GetDevices (Ok output) unmarshal h = Ok (h', roots)
    /\ take (length h) h' = h
    /\ length h' =
         (length h + sum_list ((fun c => S (itemsCount c.2)) <$> data))%nat
    /\ length roots = length data
    /\ forall (i : nat) (c : spUSBController) (items : list spUSBDevice),
         data !! i = Some (c, items) ->
         exists (r : ptr) (d : USBDevice),
           roots !! i = Some r /\ h' !! r = Some d
           /\ skeleton d = createRootHubFromController c (Z.of_nat i + 1)
           /\ Forall2 (itemAt h' (Z.of_nat i + 1)) (Children d) items.
Proof.
  intros Hu. unfold Profiler.GetDevices, getDevicesViaSystemProfiler.
  rewrite Hu.
  destruct (profiler_fold data h [] 1)
    as (N & roots & E & Hlen & HlenN & Hroots & _).
  rewrite E. exists (h ++ N), roots. cbn [app].
  split; [done|]. split; [by rewrite take_app_length|].
  split; [by rewrite length_app, HlenN|]. split; [done|].
  intros i c items Hi. destruct (Hroots i c items Hi) as (r & d & H).
  exists r, d. by rewrite (Z.add_comm (Z.of_nat i) 1).
Qed.

Lemma profiler_forest_mirrors_items_witness :
  exists (h' : heap) (roots : list ptr),
    Profiler.GetDevices (Ok "") (fun _ => Ok sampleData) [] = Ok (h', roots)
    /\ take 0 h' = []
    /\ length h' = 4%nat
    /\ length roots = 2%nat
    /\ forall (i : nat) (c : spUSBController) (items : list spUSBDevice),
         sampleData !! i = Some (c, items) ->
         exists (r : ptr) (d : USBDevice),
           roots !! i = Some r /\ h' !! r = Some d
           /\ skeleton d = createRootHubFromController c (Z.of_nat i + 1)
           /\ Forall2 (itemAt h' (Z.of_nat i + 1)) (Children d) items.
Proof.
  apply (profiler_forest_mirrors_items "" (fun _ => Ok sampleData)
           sampleData [] eq_refl).
Defined.

(** X2. The forest of the darwin detector is a forest: the roots are
    distinct new records; every new record is a root or a child of a new
    record, and not both; no record is a child of two records or twice a
    child of one; and a child was allocated after its parent, so that no
    record is below itself. *)
Theorem profiler_forest_is_tree (output : string)
    (unmarshal : string -> result spData) (data : spData) (h : heap) :
  unmarshal output = Ok data ->
  exists (h' : heap) (roots : list ptr),
    Profiler.GetDevices (Ok output) unmarshal h = Ok (h', roots)
    /\ NoDup roots
    /\ (forall p : ptr,
          (length h <= p < length h')%nat ->
          p ∈ roots
          \/ exists q : ptr, (length h <= q)%nat /\ p ∈ children_of h' q)
    /\ (forall q p : ptr,
          (length h <= q)%nat -> p ∈ children_of h' q ->
          (q < p < length h')%nat /\ p ∉ roots)
    /\ (forall q q' p : ptr,
          (length h <= q)%nat -> (length h <= q')%nat ->
          p ∈ children_of h' q -> p ∈ children_of h' q' -> q = q')
    /\ (forall q : ptr, (length h <= q)%nat -> NoDup (children_of h' q))
    /\ (forall q : ptr, (length h <= q)%nat -> ~ below h' q q).
Proof.
  intros Hu. unfold Profiler.GetDevices, getDevicesViaSystemProfiler.
  rewrite Hu.
  destruct (profiler_fold data h [] 1)
    as (N & roots & E & _ & _ & _ & Hperm & Hlt).
  rewrite E. exists (h ++ N), roots. cbn [app]. split; [done|].
  assert (Hnd : NoDup (roots ++ concat (Children <$> N))).
  { rewrite Hperm. apply NoDup_seq. }
  apply NoDup_app in Hnd as (Hnd1 & Hdis & Hnd2).
  assert (Hchild : forall q p, (length h <= q)%nat ->
            p ∈ children_of (h ++ N) q ->
            exists d, N !! (q - length h)%nat = Some d /\ p ∈ Children d).
  { intros q p Hq Hin. rewrite children_of_new in Hin by done.
    destruct (N !! (q - length h)%nat) as [d|]; [eauto|].
    by apply elem_of_nil in Hin. }
  assert (Hcat : forall q p, (length h <= q)%nat ->
            p ∈ children_of (h ++ N) q -> p ∈ concat (Children <$> N)).
  { intros q p Hq Hin. destruct (Hchild q p Hq Hin) as (d & Hd & Hp).
    apply elem_of_concat. exists (Children d). split; [|done].
    apply list_elem_of_fmap. exists d. split; [done|].
    by eapply list_elem_of_lookup_2. }
  assert (Hup : forall q p, (length h <= q)%nat ->
            p ∈ children_of (h ++ N) q -> (q < p)%nat).
  { intros q p Hq Hin. destruct (Hchild q p Hq Hin) as (d & Hd & Hp).
    pose proof (Hlt _ d p Hd Hp). lia. }
  split; [done|]. split; [|split; [|split; [|split]]].
  - intros p Hp. rewrite length_app in Hp.
    assert (Hin : p ∈ roots ++ concat (Children <$> N)).
    { rewrite Hperm. apply elem_of_seq. lia. }
    apply elem_of_app in Hin as [Hin|Hin]; [by left|]. right.
    apply elem_of_concat in Hin as (l & Hl & Hpl).
    apply list_elem_of_fmap in Hl as (d & -> & Hd).
    apply list_elem_of_lookup_1 in Hd as [i Hi].
    exists (length h + i)%nat. split; [lia|].
    rewrite children_of_new by lia.
    replace (length h + i - length h)%nat with i by lia. by rewrite Hi.
  - intros q p Hq Hin. pose proof (Hcat q p Hq Hin) as Hc.
    split; [|intros Hr; exact (Hdis p Hr Hc)].
    split; [by apply Hup|].
    assert (Hs : p ∈ seq (length h) (length N)).
    { rewrite <- Hperm. apply elem_of_app. by right. }
    apply elem_of_seq in Hs. rewrite length_app. lia.
  - intros q q' p Hq Hq' Hin Hin'.
    destruct (Hchild q p Hq Hin) as (d & Hd & Hp).
    destruct (Hchild q' p Hq' Hin') as (d' & Hd' & Hp').
    assert (Heq : (q - length h = q' - length h)%nat).
    { apply (NoDup_concat_same (Children <$> N) _ _ (Children d)
               (Children d') p); [done| | |done|done].
      - by rewrite list_lookup_fmap, Hd.
      - by rewrite list_lookup_fmap, Hd'. }
    lia.
  - intros q Hq. rewrite children_of_new by done.
    destruct (N !! (q - length h)%nat) as [d|] eqn:Hd; [|constructor].
    apply (NoDup_concat_elem (Children <$> N)); [done|].
    apply list_elem_of_fmap. exists d. split; [done|].
    by eapply list_elem_of_lookup_2.
  - intros q Hq Hb.
    pose proof (below_increasing (h ++ N) (length h) Hup q q Hq Hb). lia.
Qed.

Lemma profiler_forest_is_tree_witness :
  exists (h' : heap) (roots : list ptr),
    Profiler.GetDevices (Ok "") (fun _ => Ok sampleData) [] = Ok (h', roots)
    /\ NoDup roots
    /\ (forall p : ptr,
          (0 <= p < length h')%nat ->
          p ∈ roots
          \/ exists q : ptr, (0 <= q)%nat /\ p ∈ children_of h' q)
    /\ (forall q p : ptr,
          (0 <= q)%nat -> p ∈ children_of h' q ->
          (q < p < length h')%nat /\ p ∉ roots)
    /\ (forall q q' p : ptr,
          (0 <= q)%nat -> (0 <= q')%nat ->
          p ∈ children_of h' q -> p ∈ children_of h' q' -> q = q')
    /\ (forall q : ptr, (0 <= q)%nat -> NoDup (children_of h' q))
    /\ (forall q : ptr, (0 <= q)%nat -> ~ below h' q q).
Proof.
  apply (profiler_forest_is_tree "" (fun _ => Ok sampleData) sampleData []
           eq_refl).
Defined.

End ProfilerForest.

(** ** The formatter *)

Section Formatter.

Lemma HasPrefix_self (a b : string) : HasPrefix (String.append a b) a = true.
Proof.
  induction a as [|c a IH]; [reflexivity|].
  simpl. by rewrite Ascii.eqb_refl, IH.
Qed.

(** The loop [formatEach] returns when every call returns, and appends
    what the calls return. *)
Lemma formatEach_Done (Q : string -> Prop)
    (format : ptr -> bool -> outcome (list string)) (xs : list ptr) :
  (forall (x : ptr) (b : bool),
     x ∈ xs -> exists ls, format x b = Done ls /\ Forall Q ls) ->
  forall (i n : nat) (lines : list string),
    exists extra : list string,
      formatEach format xs i n lines = Done (lines ++ extra)
      /\ Forall Q extra.
Proof.
  induction xs as [|x xs IH]; intros Hf i n lines.
  - exists []. by rewrite app_nil_r.
  - cbn [formatEach].
    destruct (Hf x (i =? n - 1)%nat ltac:(by left)) as (ls & -> & Hls).
    destruct (IH (fun y b Hy => Hf y b ltac:(by right)) (S i) n (lines ++ ls))
      as (extra & -> & Hex).
    exists (ls ++ extra). split; [by rewrite app_assoc|].
    by apply Forall_app.
Qed.

Lemma getDetailLines_prefix (d : USBDevice) (prefix : string) :
  Forall (fun l => HasPrefix l prefix = true) (getDetailLines d prefix).
Proof.
  unfold getDetailLines.
  repeat match goal with
         | |- context [if ?b then _ else _] => destruct b
         end;
    repeat (apply Forall_app; split);
    repeat constructor; apply HasPrefix_self.
Qed.

(** X3. On a heap whose lists of children hold pointers into the heap
    and whose records can be ranked so that a child ranks below its
    parent, [FormatDevice] returns as soon as the depth allowed exceeds
    the rank of the device. Its first line is the prefix, the connector
    and the text of the device; every further line starts with the
    prefix followed by the indentation of the children. *)
Theorem FormatDevice_returns (verbose : bool) (h : heap)
    (rank : ptr -> nat) :
  closed h ->
  (forall q p : ptr, p ∈ children_of h q -> (rank p < rank q)%nat) ->
  forall (fuel : nat) (p : ptr) (d : USBDevice) (prefix : string)
         (isLast : bool),
    h !! p = Some d -> (rank p < fuel)%nat ->
    exists rest : list string,
      FormatDevice fuel verbose h p prefix isLast =
        Done (String.append prefix
                (String.append (connectorOf isLast) (getDeviceString d))
              :: rest)
      /\ Forall (fun l =>
                   HasPrefix l (String.append prefix (childIndent isLast))
                   = true) rest.
Proof.
  intros Hclosed Hrank fuel.
  induction fuel as [|fuel IH]; intros p d prefix isLast Hd Hlt; [lia|].
  cbn [FormatDevice]. rewrite Hd.
  set (first := String.append prefix
                  (String.append (connectorOf isLast) (getDeviceString d))).
  set (cp := String.append prefix (childIndent isLast)).
  set (lines := if verbose then [first] ++ getDetailLines d cp else [first]).
  assert (Hlines : exists det, lines = first :: det
                     /\ Forall (fun l => HasPrefix l cp = true) det).
  { unfold lines. destruct verbose.
    - exists (getDetailLines d cp). split; [done|].
      apply getDetailLines_prefix.
    - exists []. by split. }
  destruct Hlines as (det & -> & Hdet).
  destruct (formatEach_Done (fun l => HasPrefix l cp = true)
              (fun child isLastChild =>
                 FormatDevice fuel verbose h child cp isLastChild)
              (Children d)) with (i := 0%nat) (n := length (Children d))
              (lines := first :: det) as (extra & -> & Hex).
  { intros x b Hx.
    assert (Hin : x ∈ children_of h p) by (unfold children_of; by rewrite Hd).
    destruct (Hclosed p x Hin) as [dx Hdx].
    pose proof (Hrank p x Hin) as Hr.
    destruct (IH x dx cp b Hdx ltac:(lia)) as (rest & -> & Hrest).
    eexists. split; [reflexivity|]. constructor.
    - apply HasPrefix_self.
    - eapply Forall_impl; [exact Hrest|]. intros l Hl.
      by apply HasPrefix_app in Hl. }
  exists (det ++ extra). split; [done|]. by apply Forall_app.
Qed.

(** A check of [closed] that can be computed. *)
Lemma closed_forallb (h : heap) :
  forallb (fun d => forallb (fun c => (c <? length h)%nat) (Children d)) h
  = true ->
  closed h.
Proof.
  intros Hall q p Hin. unfold children_of in Hin.
  destruct (h !! q) as [d|] eqn:Hd; [|by apply elem_of_nil in Hin].
  rewrite forallb_forall in Hall.
  specialize (Hall d ltac:(apply list_elem_of_In;
                           by eapply list_elem_of_lookup_2)).
  rewrite forallb_forall in Hall.
  specialize (Hall p ltac:(by apply list_elem_of_In)).
  apply Nat.ltb_lt in Hall. by apply lookup_lt_is_Some_2.
Qed.

Lemma closed_sampleForest : closed sampleForest.1.
Proof. apply closed_forallb. reflexivity. Qed.

(** A check that every child has a greater index than its parent. *)
Lemma increasing_forallb (h : heap) :
  forallb id
    (imap (fun q d => forallb (fun c => (q <? c)%nat) (Children d)) h)
  = true ->
  forall q p : ptr, p ∈ children_of h q -> (q < p)%nat.
Proof.
  intros Hall q p Hin. unfold children_of in Hin.
  destruct (h !! q) as [d|] eqn:Hd; [|by apply elem_of_nil in Hin].
  rewrite forallb_forall in Hall.
  assert (Hq : forallb (fun c => (q <? c)%nat) (Children d) = true).
  { apply (Hall (forallb (fun c => (q <? c)%nat) (Children d))).
    apply list_elem_of_In, (list_elem_of_lookup_2 _ q).
    by rewrite list_lookup_imap, Hd. }
  rewrite forallb_forall in Hq.
  apply Nat.ltb_lt, Hq. by apply list_elem_of_In.
Qed.

Lemma sampleForest_rank (q p : ptr) :
  p ∈ children_of sampleForest.1 q -> (4 - p < 4 - q)%nat.
Proof.
  intros Hin.
  pose proof (increasing_forallb sampleForest.1 eq_refl q p Hin).
  destruct (closed_sampleForest q p Hin) as [d Hd].
  apply lookup_lt_Some in Hd. change (length sampleForest.1) with 4%nat in Hd.
  lia.
Qed.

Lemma FormatDevice_returns_witness :
  exists rest : list string,
    FormatDevice 5 true sampleForest.1 0 "" true =
      Done (String.append ""
              (String.append (connectorOf true)
                 (getDeviceString (nth 0 sampleForest.1 zeroDevice)))
            :: rest)
    /\ Forall (fun l =>
                 HasPrefix l (String.append "" (childIndent true)) = true)
         rest.
Proof.
  apply (FormatDevice_returns true sampleForest.1 (fun p => 4 - p)%nat
           closed_sampleForest sampleForest_rank 5 0%nat
           (nth 0 sampleForest.1 zeroDevice) "" true).
  - reflexivity.
  - lia.
Defined.


(** When the loop [formatEach] returns, every call has returned. *)
Lemma formatEach_Done_inv (format : ptr -> bool -> outcome (list string))
    (xs : list ptr) :
  forall (i n : nat) (lines r : list string),
    formatEach format xs i n lines = Done r ->
    forall x : ptr, x ∈ xs -> exists b ls, format x b = Done ls.
Proof.
  induction xs as [|y xs IH]; intros i n lines r Hr x Hx;
    [by apply elem_of_nil in Hx|].
  cbn [formatEach] in Hr.
  destruct (format y (i =? n - 1)%nat) as [ls| |] eqn:Hy; try discriminate.
  apply elem_of_cons in Hx as [->|Hx]; [eauto|].
  by eapply IH.
Qed.

(** The loop does not read outside the heap when no call does. *)
Lemma formatEach_valid (format : ptr -> bool -> outcome (list string))
    (xs : list ptr) :
  (forall (x : ptr) (b : bool), x ∈ xs -> format x b <> Invalid) ->
  forall (i n : nat) (lines : list string),
    formatEach format xs i n lines <> Invalid.
Proof.
  induction xs as [|y xs IH]; intros Hf i n lines; [done|].
  cbn [formatEach].
  destruct (format y (i =? n - 1)%nat) as [ls| |] eqn:Hy; [|done|].
  - apply IH. intros x b Hx. apply Hf. by right.
  - by destruct (Hf y (i =? n - 1)%nat ltac:(by left)).
Qed.

Lemma FormatDevice_valid (verbose : bool) (h : heap) :
  closed h ->
  forall (fuel : nat) (p : ptr) (prefix : string) (isLast : bool),
    is_Some (h !! p) ->
    FormatDevice fuel verbose h p prefix isLast <> Invalid.
Proof.
  intros Hclosed fuel.
  induction fuel as [|fuel IH]; intros p prefix isLast [d Hd]; [done|].
  cbn [FormatDevice]. rewrite Hd. apply formatEach_valid.
  intros x b Hx. apply IH. apply (Hclosed p).
  unfold children_of. by rewrite Hd.
Qed.

(** A call that returns was given more depth than the calls for the
    records below its device, which return as well. *)
Lemma FormatDevice_below (verbose : bool) (h : heap) (q p : ptr) :
  below h q p ->
  forall (fuel : nat) (prefix : string) (isLast : bool)
         (lines : list string),
    FormatDevice fuel verbose h q prefix isLast = Done lines ->
    exists (fuel' : nat) (prefix' : string) (isLast' : bool)
           (lines' : list string),
      (fuel' < fuel)%nat
      /\ FormatDevice fuel' verbose h p prefix' isLast' = Done lines'.
Proof.
  assert (Hchild : forall q c fuel prefix isLast lines,
            c ∈ children_of h q ->
            FormatDevice fuel verbose h q prefix isLast = Done lines ->
            exists fuel' prefix' isLast' lines',
              (fuel' < fuel)%nat
              /\ FormatDevice fuel' verbose h c prefix' isLast' = Done lines').
  { intros q' c [|fuel] prefix isLast lines Hc Hq; [discriminate|].
    cbn [FormatDevice] in Hq. unfold children_of in Hc.
    destruct (h !! q') as [d|]; [|discriminate].
    destruct (formatEach_Done_inv _ _ _ _ _ _ Hq c Hc) as (b & ls & Hls).
    exists fuel. eauto 10. }
  intros Hb. induction Hb as [q p Hin|q c p Hin Hb IH];
    intros fuel prefix isLast lines Hq.
  - by eapply Hchild.
  - destruct (Hchild q c fuel prefix isLast lines Hin Hq)
      as (f1 & p1 & b1 & l1 & Hlt1 & H1).
    destruct (IH f1 p1 b1 l1 H1) as (f2 & p2 & b2 & l2 & Hlt2 & H2).
    exists f2, p2, b2, l2. split; [lia|done].
Qed.

(** X4. [FormatDevice] does not return for a record that is below
    itself: whatever depth is allowed, the recursion uses it up. *)
Theorem FormatDevice_cycle (verbose : bool) (h : heap) (p : ptr) :
  closed h -> below h p p ->
  forall (fuel : nat) (prefix : string) (isLast : bool),
    FormatDevice fuel verbose h p prefix isLast = OutOfFuel.
Proof.
  intros Hclosed Hb.
  assert (Hnot : forall fuel prefix isLast lines,
            FormatDevice fuel verbose h p prefix isLast <> Done lines).
  { intros fuel. induction (lt_wf fuel) as [fuel _ IH].
    intros prefix isLast lines Hd.
    destruct (FormatDevice_below verbose h p p Hb fuel prefix isLast lines Hd)
      as (fuel' & prefix' & isLast' & lines' & Hlt & Hd').
    exact (IH fuel' Hlt prefix' isLast' lines' Hd'). }
  assert (Hp : is_Some (h !! p)).
  { clear Hnot. assert (Hex : exists q, p ∈ children_of h q).
    { induction Hb as [q p Hin|q c p Hin Hb IH]; eauto. }
    destruct Hex as [q Hq]. by apply (Hclosed q). }
  intros fuel prefix isLast.
  pose proof (FormatDevice_valid verbose h Hclosed fuel p prefix isLast Hp).
  destruct (FormatDevice fuel verbose h p prefix isLast) as [lines| |] eqn:E;
    [by destruct (Hnot fuel prefix isLast lines)|done|done].
Qed.

Lemma closed_samePortForest : closed samePortForest.
Proof. apply closed_forallb. reflexivity. Qed.

Lemma FormatDevice_cycle_witness :
  FormatDevice 1000 true samePortForest 0 "" true = OutOfFuel.
Proof.
  apply (FormatDevice_cycle true samePortForest 0%nat closed_samePortForest).
  apply below_child. vm_compute. by left.
Defined.

Lemma formatEach_count (format : ptr -> bool -> outcome (list string))
    (count : spUSBDevice -> nat) (xs : list ptr)
    (items : list spUSBDevice) :
  Forall2 (fun x item =>
             forall b : bool,
               exists ls, format x b = Done ls /\ length ls = count item)
    xs items ->
  forall (i n : nat) (lines : list string),
    exists r : list string,
      formatEach format xs i n lines = Done r
      /\ length r = (length lines + sum_list (count <$> items))%nat.
Proof.
  induction 1 as [|x item xs items Hx _ IH]; intros i n lines.
  - exists lines. split; [done|]. cbn. lia.
  - cbn [formatEach]. destruct (Hx (i =? n - 1)%nat) as (ls & -> & Hls).
    destruct (IH (S i) n (lines ++ ls)) as (r & -> & Hr).
    exists r. split; [done|]. rewrite Hr, length_app, Hls. cbn.
    unfold sum_list. lia.
Qed.

Lemma sum_list_fmap {A : Type} (f : A -> nat) (l : list A) :
  sum_list (f <$> l) = sum_list_with f l.
Proof. induction l as [|x l IH]; [done|]. cbn. by rewrite <- IH. Qed.

(** Without details, the device of an item and the devices below it take
    one line each. *)
Lemma FormatDevice_item (h : heap) (bus : Z) (item : spUSBDevice) :
  forall (p : ptr) (fuel : nat) (prefix : string) (isLast : bool),
    itemAt h bus p item -> (itemCount item <= fuel)%nat ->
    exists lines : list string,
      FormatDevice fuel false h p prefix isLast = Done lines
      /\ length lines = itemCount item.
Proof.
  induction item as [item IH] using item_ind'.
  intros p fuel prefix isLast Hp Hfuel.
  inversion Hp as [p' item' d Hd Hs Hc]; subst.
  rewrite itemCount_eq in Hfuel |- *.
  destruct fuel as [|fuel]; [lia|]. cbn [FormatDevice]. rewrite Hd.
  match goal with
  | |- context [formatEach ?f ?xs ?a ?m ?l] =>
      destruct (formatEach_count f itemCount xs (iItems item)) with
        (i := a) (n := m) (lines := l) as (r & -> & Hr)
  end.
  - clear Hd Hs Hp. revert IH Hfuel.
    induction Hc as [|c it cs its Hc Hcs IHc]; intros IH Hfuel;
      [constructor|].
    apply Forall_cons in IH as [IH1 IH2].
    rewrite itemsCount_cons in Hfuel.
    constructor; [|apply IHc; [done|lia]].
    intros b. apply IH1; [done|lia].
  - exists r. split; [done|]. rewrite Hr. reflexivity.
Qed.

(** X5. The forest of the darwin detector can be formatted: with one
    level of depth for each record, [FormatTree] returns, and without
    details the root hub of a controller takes one line, followed by one
    line for each item of the controller. *)
Theorem profiler_forest_formats (output : string)
    (unmarshal : string -> result spData) (data : spData) (h h' : heap)
    (roots : list ptr) :
  Profiler.GetDevices (Ok output) unmarshal h = Ok (h', roots) ->
  unmarshal output = Ok data ->
  (exists text : string, FormatTree (length h') false h' roots = Done text)
  /\ forall (i : nat) (c : spUSBController) (items : list spUSBDevice)
            (prefix : string) (isLast : bool),
       data !! i = Some (c, items) ->
       exists (r : ptr) (lines : list string),
         roots !! i = Some r
         /\ FormatDevice (length h') false h' r prefix isLast = Done lines
         /\ length lines = S (itemsCount items).
Proof.
  intros Hget Hu.
  unfold Profiler.GetDevices, getDevicesViaSystemProfiler in Hget.
  rewrite Hu in Hget.
  destruct (profiler_fold data h [] 1)
    as (N & roots1 & E & Hlr & HlenN & Hroots & _).
  rewrite E in Hget. injection Hget as <- <-. cbn [app] in *.
  assert (Hlen : length (h ++ N) =
            (length h + sum_list ((fun c => S (itemsCount c.2)) <$> data))%nat)
    by by rewrite length_app, HlenN.
  set (h' := h ++ N) in *.
  assert (Hroot : forall i c items prefix isLast,
            data !! i = Some (c, items) ->
            exists r lines,
              roots1 !! i = Some r
              /\ FormatDevice (length h') false h' r prefix isLast
                 = Done lines
              /\ length lines = S (itemsCount items)).
  { intros i c items prefix isLast Hi.
    destruct (Hroots i c items Hi) as (r & d & Hr & Hd & _ & Hf).
    replace (1 + Z.of_nat i) with (Z.of_nat i + 1) in Hf by lia.
    exists r.
    assert (Hsum : (S (itemsCount items) <= length h')%nat).
    { rewrite Hlen.
      pose proof (sum_list_with_in (c, items)
                    (fun c => S (itemsCount c.2)) data
                    ltac:(by eapply list_elem_of_lookup_2)) as Hle.
      cbn [snd] in Hle. rewrite sum_list_fmap. lia. }
    destruct (length h') as [|fuel] eqn:El; [lia|].
    cbn [FormatDevice]. rewrite Hd.
    match goal with
    | |- context [formatEach ?f ?xs ?a ?m ?l] =>
        destruct (formatEach_count f itemCount xs items) with
          (i := a) (n := m) (lines := l) as (lines & -> & Hlines)
    end.
    - clear Hd Hr. assert (Hfuel : (itemsCount items <= fuel)%nat) by lia.
      revert Hfuel. clear Hsum Hi.
      induction Hf as [|x it xs its Hx _ IHf]; intros Hfuel; [constructor|].
      rewrite itemsCount_cons in Hfuel.
      constructor; [|apply IHf; lia].
      intros b. eapply FormatDevice_item; [exact Hx|lia].
    - exists lines. split; [done|]. split; [done|].
      rewrite Hlines. reflexivity. }
  split; [|exact Hroot].
  unfold FormatTree. destruct (length roots1 =? 0)%nat; [eauto|].
  destruct (formatEach_Done (fun _ => True)
              (fun device isLast =>
                 FormatDevice (length h') false h' device "" isLast) roots1)
    with (i := 0%nat) (n := length roots1)
         (lines := ["USB Device Tree:"; ""]%string) as (extra & -> & _);
    [|eauto].
  intros x b Hx. apply list_elem_of_lookup_1 in Hx as [i Hi].
  destruct (lookup_lt_is_Some_2 data i) as [[c items] Hc].
  { rewrite <- Hlr. by eapply lookup_lt_Some. }
  destruct (Hroot i c items "" b Hc) as (r & lines & Hr & Hl & _).
  rewrite Hi in Hr. injection Hr as <-. exists lines. split; [done|].
  by apply Forall_forall.
Qed.

Lemma profiler_forest_formats_witness :
  (exists text : string,
     FormatTree (length sampleForest.1) false sampleForest.1 sampleForest.2
     = Done text)
  /\ forall (i : nat) (c : spUSBController) (items : list spUSBDevice)
            (prefix : string) (isLast : bool),
       sampleData !! i = Some (c, items) ->
       exists (r : ptr) (lines : list string),
         sampleForest.2 !! i = Some r
         /\ FormatDevice (length sampleForest.1) false sampleForest.1 r
              prefix isLast = Done lines
         /\ length lines = S (itemsCount items).
Proof.
  apply (profiler_forest_formats "" (fun _ => Ok sampleData) sampleData []
           sampleForest.1 sampleForest.2); reflexivity.
Defined.

End Formatter.
